(** * Xiaomi Yi camera controller: session handlers of [src/App.tsx]

    A shallow embedding of the event handlers of the [XiaomiYiCameraApp]
    React component, and the properties of the device session that they
    implement.

    Modelling choices, all read off the source:
    - the component's [useState] cells and the [videoRef] DOM reference form
      one record [State];
    - a handler is a closure created by a render: the state it {e reads}
      ([cameraInfo], [settings], [isConnected]) is the snapshot of that render,
      while its [setX] calls act on the current state.  Handlers therefore take
      the snapshot as an explicit argument and run in a state monad over the
      current state;
    - [fetch] and [HTMLMediaElement.play] are the only interactions with the
      outside world.  They are events of a small free monad [Prog]; running a
      program against an environment yields the final state together with the
      list of HTTP requests that were issued;
    - TypeScript types are erased at run time, so the fields copied out of the
      device's JSON answer are JavaScript values ([JsValue]) and [||] is the
      JavaScript operator on them. *)

From Stdlib Require Import ZArith.
From stdpp Require Import base option strings gmap list.

(** ** JavaScript values and JSON bodies *)

Module Js.

(** The values a parsed JSON property can evaluate to.  Numbers are IEEE
    doubles in JavaScript; the integers and [NaN] are represented, which are
    the cases that the truthiness test distinguishes.  Nested objects and
    arrays are always truthy and their contents are never inspected by the
    program, so one constructor stands for them. *)
Inductive JsValue : Type :=
| JsUndefined
| JsNull
| JsBool (b : bool)
| JsNumber (n : Z)
| JsNaN
| JsString (s : string)
| JsObject.

#[global] Instance JsValue_eq_dec : EqDecision JsValue.
Proof. solve_decision. Defined.

(** [ToBoolean]: [undefined], [null], [false], [0], [NaN] and the empty
    string are falsy, everything else is truthy. *)
Definition truthy (v : JsValue) : bool :=
  match v with
  | JsUndefined | JsNull | JsNaN => false
  | JsBool b => b
  | JsNumber n => negb (n =? 0)%Z
  | JsString s => negb (String.eqb s EmptyString)
  | JsObject => true
  end.

(** [a || b] *)
Definition or (a b : JsValue) : JsValue := if truthy a then a else b.

(** What [JSON.parse] can return, as far as property access sees it. *)
Inductive Json : Type :=
| JsonNull
| JsonObject (fields : gmap string JsValue)
| JsonOther.   (* a boolean, number, string or array *)

(** [info.key]: throws a [TypeError] on [null] ([None]); an absent property
    reads as [undefined]. *)
Definition prop (info : Json) (key : string) : option JsValue :=
  match info with
  | JsonNull => None
  | JsonObject fields => Some (default JsUndefined (fields !! key))
  | JsonOther => Some JsUndefined
  end.

End Js.
Import Js.

(** ** The HTTP surface *)

Inductive Method : Type := GET | POST.

Inductive Body : Type :=
| NoBody
| PreviewBody (resolution : string)          (* JSON.stringify({ resolution }) *)
| SettingsBody (resolution quality mode : string). (* JSON.stringify(settings) *)

Record Request : Type := mkRequest {
  url : string;
  method : Method;
  jsonContentType : bool;   (* headers: { "Content-Type": "application/json" } *)
  body : Body
}.

(** [response.json()] either rejects (the body is not JSON, or the object has
    no [json] method) or resolves to the parsed value. *)
Inductive JsonResult : Type :=
| JsonThrows
| JsonValue (info : Json).

Record Response : Type := mkResponse {
  ok : bool;
  json : JsonResult
}.

(** The promise returned by [fetch]: rejected (no route, refused, aborted,
    timed out by the platform) or resolved with a response of any status. *)
Inductive FetchResult : Type :=
| Rejected
| Resolved (response : Response).

(** ** Component state *)

Inductive Status : Type := connected | disconnected | recording.

Record CameraInfo : Type := mkCameraInfo {
  ip : string;
  model : JsValue;
  firmware : JsValue;
  battery : JsValue;
  status : Status
}.

Record CameraSettings : Type := mkCameraSettings {
  resolution : string;
  quality : string;
  mode : string
}.

(** The [<video>] element behind [videoRef.current]. *)
Record Video : Type := mkVideo {
  src : string;
  paused : bool
}.

Record State : Type := mkState {
  isConnected : bool;
  isScanning : bool;
  isRecording : bool;
  cameraInfo : option CameraInfo;
  cameraIP : string;
  streamUrl : string;
  error : string;
  settings : CameraSettings;
  videoRef : option Video
}.

(** The [useState] initial values; no [<video>] is mounted before the first
    connection. *)
Definition initialState : State :=
  {| isConnected := false;
     isScanning := false;
     isRecording := false;
     cameraInfo := None;
     cameraIP := "192.168.42.1";
     streamUrl := EmptyString;
     error := EmptyString;
     settings := {| resolution := "1920x1080"; quality := "high"; mode := "video" |};
     videoRef := None |}.

(** State setters, one per [useState] cell. *)
Definition setIsConnected (b : bool) (s : State) : State :=
  mkState b (isScanning s) (isRecording s) (cameraInfo s) (cameraIP s)
          (streamUrl s) (error s) (settings s) (videoRef s).
Definition setIsScanning (b : bool) (s : State) : State :=
  mkState (isConnected s) b (isRecording s) (cameraInfo s) (cameraIP s)
          (streamUrl s) (error s) (settings s) (videoRef s).
Definition setIsRecording (b : bool) (s : State) : State :=
  mkState (isConnected s) (isScanning s) b (cameraInfo s) (cameraIP s)
          (streamUrl s) (error s) (settings s) (videoRef s).
(** [setCameraInfo] is used both with a value and with an updater function
    of the previous value; the updater form is the general one. *)
Definition setCameraInfo (f : option CameraInfo -> option CameraInfo) (s : State) : State :=
  mkState (isConnected s) (isScanning s) (isRecording s) (f (cameraInfo s)) (cameraIP s)
          (streamUrl s) (error s) (settings s) (videoRef s).
Definition setCameraIP (v : string) (s : State) : State :=
  mkState (isConnected s) (isScanning s) (isRecording s) (cameraInfo s) v
          (streamUrl s) (error s) (settings s) (videoRef s).
Definition setStreamUrl (v : string) (s : State) : State :=
  mkState (isConnected s) (isScanning s) (isRecording s) (cameraInfo s) (cameraIP s)
          v (error s) (settings s) (videoRef s).
Definition setError (v : string) (s : State) : State :=
  mkState (isConnected s) (isScanning s) (isRecording s) (cameraInfo s) (cameraIP s)
          (streamUrl s) v (settings s) (videoRef s).
Definition setSettings (f : CameraSettings -> CameraSettings) (s : State) : State :=
  mkState (isConnected s) (isScanning s) (isRecording s) (cameraInfo s) (cameraIP s)
          (streamUrl s) (error s) (f (settings s)) (videoRef s).
(** Assignments through [videoRef.current]. *)
Definition setVideo (f : option Video -> option Video) (s : State) : State :=
  mkState (isConnected s) (isScanning s) (isRecording s) (cameraInfo s) (cameraIP s)
          (streamUrl s) (error s) (settings s) (f (videoRef s)).

(** ** Programs with external calls *)

Inductive Prog (A : Type) : Type :=
| Ret (a : A)
| Fetch (rq : Request) (k : FetchResult -> Prog A)
| Play (k : bool -> Prog A).   (* does the promise of [video.play()] resolve? *)
Arguments Ret {A} a.
Arguments Fetch {A} rq k.
Arguments Play {A} k.

(** The outside world of one handler run: the answer to the [n]-th [fetch]
    of the run (counted from the index the run starts at) may depend on the
    request, and [playable] tells whether [play()] resolves. *)
Record Env : Type := mkEnv {
  net : nat -> Request -> FetchResult;
  playable : bool
}.

(** Run a program from fetch index [n]: its result and the requests issued,
    oldest first. *)
Fixpoint run {A : Type} (e : Env) (n : nat) (p : Prog A) : A * list Request :=
  match p with
  | Ret a => (a, [])
  | Fetch rq k =>
      let '(a, log) := run e (S n) (k (net e n rq)) in (a, rq :: log)
  | Play k => run e n (k (playable e))
  end.

(** Handlers: a state monad over the current component state, on top of
    [Prog]. *)
Definition M (A : Type) : Type := State -> Prog (A * State).

Fixpoint bindProg {A B : Type} (p : Prog A) (f : A -> Prog B) : Prog B :=
  match p with
  | Ret a => f a
  | Fetch rq k => Fetch rq (fun r => bindProg (k r) f)
  | Play k => Play (fun b => bindProg (k b) f)
  end.

Definition ret {A : Type} (a : A) : M A := fun s => Ret (a, s).
Definition bind {A B : Type} (m : M A) (f : A -> M B) : M B :=
  fun s => bindProg (m s) (fun '(a, s') => f a s').
Definition modify (f : State -> State) : M unit := fun s => Ret (tt, f s).
Definition get : M State := fun s => Ret (s, s).
Definition fetch (rq : Request) : M FetchResult := fun s => Fetch rq (fun r => Ret (r, s)).
Definition play : M bool := fun s => Play (fun b => Ret (b, s)).

#[global] Instance M_ret : MRet M := @ret.
#[global] Instance M_bind : MBind M := fun A B f m => bind m f.

(** Final state and request log of a handler started in state [s]. *)
Definition exec {A : Type} (e : Env) (m : M A) (s : State) : (A * State) * list Request :=
  run e 0 (m s).
Definition finalState {A : Type} (e : Env) (m : M A) (s : State) : State :=
  snd (fst (exec e m s)).
Definition result {A : Type} (e : Env) (m : M A) (s : State) : A :=
  fst (fst (exec e m s)).
Definition requests {A : Type} (e : Env) (m : M A) (s : State) : list Request :=
  snd (exec e m s).

(** ** The handlers *)

Definition infoRequest (ip : string) : Request :=
  {| url := "http://" +:+ ip +:+ "/camera-info";
     method := GET; jsonContentType := false; body := NoBody |}.

Definition connectFailedMsg : string :=
  "Failed to connect to camera. Please check IP address and network connection.".

(** The [catch] block of [connectToCamera]. *)
Definition connectCatch : M bool :=
  modify (setError connectFailedMsg) ;; mret false.

Definition connectToCamera (ip : string) : M bool :=
  modify (setError EmptyString) ;;
  answer ← fetch (infoRequest ip) ;
  match answer with
  | Rejected => connectCatch
  | Resolved response =>
      if ok response then
        match json response with
        | JsonThrows => connectCatch
        | JsonValue info =>
            match prop info "model", prop info "firmware", prop info "battery" with
            | Some m, Some f, Some b =>
                modify (setCameraInfo (fun _ => Some
                  {| ip := ip;
                     model := Js.or m (JsString "Xiaomi Yi Camera");
                     firmware := Js.or f (JsString "1.4.13");
                     battery := Js.or b (JsNumber 85);
                     status := connected |})) ;;
                modify (setIsConnected true) ;;
                modify (setStreamUrl ("http://" +:+ ip +:+ ":8080/live")) ;;
                mret true
            | _, _, _ => connectCatch
            end
        end
      else mret false
  end.

(** The object that [.catch(() => ({ ok: true }))] substitutes for a rejected
    [fetch] (source comment: "Simulate success for demo").  It has no [json]
    method. *)
Definition simulatedSuccess : Response := {| ok := true; json := JsonThrows |}.

(** [fetch(...).catch(() => ({ ok: true }))] *)
Definition fetchOrSimulate (rq : Request) : M Response :=
  answer ← fetch rq ;
  mret (match answer with
        | Rejected => simulatedSuccess
        | Resolved response => response
        end).

Definition previewRequest (ip resolution : string) : Request :=
  {| url := "http://" +:+ ip +:+ "/start-preview";
     method := POST; jsonContentType := true; body := PreviewBody resolution |}.

Definition startRecordRequest (ip : string) (cs : CameraSettings) : Request :=
  {| url := "http://" +:+ ip +:+ "/start-record";
     method := POST; jsonContentType := true;
     body := SettingsBody (resolution cs) (quality cs) (mode cs) |}.

Definition stopRecordRequest (ip : string) : Request :=
  {| url := "http://" +:+ ip +:+ "/stop-record";
     method := POST; jsonContentType := false; body := NoBody |}.

(** In each handler below, [r] is the render snapshot the closure was
    created in. *)

Definition startLiveView (r : State) : M unit :=
  match cameraInfo r with
  | None => mret tt
  | Some info =>
      response ← fetchOrSimulate (previewRequest (ip info) (resolution (settings r))) ;
      now ← get ;
      match videoRef now with
      | Some v =>
          if ok response then
            modify (setVideo (fun _ =>
              Some {| src := "http://" +:+ ip info +:+ ":8080/live"; paused := paused v |})) ;;
            played ← play ;
            if played : bool
            then modify (setVideo (fmap (fun v => {| src := src v; paused := false |})))
            else modify (setError "Live stream not available in demo mode")
          else mret tt
      | None => mret tt
      end
  end.

Definition stopLiveView : M unit :=
  modify (setVideo (fmap (fun _ => {| src := EmptyString; paused := true |}))).

Definition withStatus (st : Status) (prev : option CameraInfo) : option CameraInfo :=
  match prev with
  | Some info =>
      Some {| ip := ip info; model := model info; firmware := firmware info;
              battery := battery info; status := st |}
  | None => None
  end.

Definition startRecording (r : State) : M unit :=
  match cameraInfo r with
  | None => mret tt
  | Some info =>
      response ← fetchOrSimulate (startRecordRequest (ip info) (settings r)) ;
      if ok response then
        modify (setIsRecording true) ;;
        modify (setCameraInfo (withStatus recording))
      else mret tt
  end.

Definition stopRecording (r : State) : M unit :=
  match cameraInfo r with
  | None => mret tt
  | Some info =>
      response ← fetchOrSimulate (stopRecordRequest (ip info)) ;
      if ok response then
        modify (setIsRecording false) ;;
        modify (setCameraInfo (withStatus connected))
      else mret tt
  end.

Definition commonIPs : list string := ["192.168.42.1"; "192.168.1.100"; "192.168.0.100"].

Definition notFoundMsg : string := "No Xiaomi Yi cameras found on network".

(** The [for (const ip of ...)] loop of [scanForCameras]: [break] after the
    first candidate for which [connectToCamera] returns [true]. *)
Fixpoint scanLoop (ips : list string) : M unit :=
  match ips with
  | [] => mret tt
  | ip :: rest =>
      isOk ← connectToCamera ip ;
      if isOk : bool then modify (setCameraIP ip) else scanLoop rest
  end.

(** [scanForCameras] over a given candidate list; the [isConnected] tested
    after the loop is the closure's, that is the snapshot's. *)
Definition scanCandidates (ips : list string) (r : State) : M unit :=
  modify (setIsScanning true) ;;
  modify (setError EmptyString) ;;
  scanLoop ips ;;
  (if negb (isConnected r) then modify (setError notFoundMsg) else mret tt) ;;
  modify (setIsScanning false).

Definition scanForCameras (r : State) : M unit := scanCandidates commonIPs r.

Definition disconnect : M unit :=
  modify (setIsConnected false) ;;
  modify (setCameraInfo (fun _ => None)) ;;
  modify (setIsRecording false) ;;
  stopLiveView.

(** The three [onChange] handlers of the settings panel. *)
Inductive Field : Type := Resolution | Quality | Mode.

Definition updateField (f : Field) (v : string) (prev : CameraSettings) : CameraSettings :=
  match f with
  | Resolution => {| resolution := v; quality := quality prev; mode := mode prev |}
  | Quality => {| resolution := resolution prev; quality := v; mode := mode prev |}
  | Mode => {| resolution := resolution prev; quality := quality prev; mode := v |}
  end.

Definition updateSettings (f : Field) (v : string) : M unit :=
  modify (setSettings (updateField f v)).

(** The [<option>] values offered by each [<select>]. *)
Definition options (f : Field) : list string :=
  match f with
  | Resolution => ["3840x2160"; "1920x1080"; "1280x720"; "640x480"]
  | Quality => ["high"; "medium"; "low"]
  | Mode => ["video"; "photo"; "timelapse"]
  end.

(** ** Intents and sequential execution *)

(** What the presentation layer can ask for: one constructor per event
    handler wired in the JSX. *)
Inductive Intent : Type :=
| TypeAddress (v : string)            (* address input: [setCameraIP(e.target.value)] *)
| Connect                             (* [connectToCamera(cameraIP)] *)
| ScanAndConnect                      (* [scanForCameras] *)
| StartPreview                        (* [startLiveView] *)
| StopPreview                         (* [stopLiveView] *)
| StartRecording
| StopRecording
| Disconnect
| UpdateSettings (f : Field) (v : string).

Definition handler (i : Intent) (r : State) : M unit :=
  match i with
  | TypeAddress v => modify (setCameraIP v)
  | Connect => connectToCamera (cameraIP r) ;; mret tt
  | ScanAndConnect => scanForCameras r
  | StartPreview => startLiveView r
  | StopPreview => stopLiveView
  | StartRecording => startRecording r
  | StopRecording => stopRecording r
  | Disconnect => disconnect
  | UpdateSettings f v => updateSettings f v
  end.

(** The [<video autoPlay muted>] element is part of the JSX only while
    [isConnected]; committing a render mounts a fresh element or unmounts the
    old one, and React updates [videoRef.current] accordingly. *)
Definition freshVideo : Video := {| src := EmptyString; paused := true |}.

Definition render (s : State) : State :=
  setVideo (fun v => if isConnected s then Some (default freshVideo v) else None) s.

(** One intent run to completion: the handler closes over the state that was
    rendered last, its effects are applied, and the component re-renders. *)
Definition step (e : Env) (i : Intent) (s : State) : State :=
  render (finalState e (handler i s) s).

(** A finite sequence of intents, each with the environment it meets. *)
Fixpoint runIntents (l : list (Intent * Env)) (s : State) : State :=
  match l with
  | [] => s
  | (i, e) :: rest => runIntents rest (step e i s)
  end.

(** ** Environments used in the examples *)

Definition always (answer : FetchResult) : Env :=
  {| net := fun _ _ => answer; playable := false |}.

Definition okJson (fields : gmap string JsValue) : FetchResult :=
  Resolved {| ok := true; json := JsonValue (JsonObject fields) |}.

Definition httpError : FetchResult :=
  Resolved {| ok := false; json := JsonThrows |}.

(** A network on which only the host [good] answers [/camera-info]. *)
Definition onlyHost (good : string) (fields : gmap string JsValue) : Env :=
  {| net := fun _ rq =>
       if String.eqb (url rq) (url (infoRequest good)) then okJson fields else Rejected;
     playable := false |}.

(** The answers on which [connectToCamera] returns [true]: an OK response
    whose body parses to something other than [null]. *)
Definition accepts (answer : FetchResult) : bool :=
  match answer with
  | Rejected => false
  | Resolved response =>
      ok response &&
      match json response with
      | JsonValue JsonNull | JsonThrows => false
      | JsonValue _ => true
      end
  end.

(** The candidates that a scan starting at fetch index [n] tries, in order,
    and the one it settles on. *)
Fixpoint scanAttempts (e : Env) (n : nat) (ips : list string) : list string :=
  match ips with
  | [] => []
  | addr :: rest =>
      if accepts (net e n (infoRequest addr)) then [addr]
      else addr :: scanAttempts e (S n) rest
  end.

Fixpoint scanFound (e : Env) (n : nat) (ips : list string) : option string :=
  match ips with
  | [] => None
  | addr :: rest =>
      if accepts (net e n (infoRequest addr)) then Some addr
      else scanFound e (S n) rest
  end.

(** The session invariants of the data model: recording only while connected,
    and camera information present exactly while connected. *)
Definition consistent (s : State) : Prop :=
  (isRecording s = true -> isConnected s = true) /\
  (isConnected s = true <-> is_Some (cameraInfo s)).

(** Reading one settings field. *)
Definition getField (f : Field) (cs : CameraSettings) : string :=
  match f with
  | Resolution => resolution cs
  | Quality => quality cs
  | Mode => mode cs
  end.

(** States used in the examples: connected to the factory-default address,
    and recording on it. *)
Definition yi4k : gmap string JsValue :=
  <["model" := JsString "Yi4K"]> (<["battery" := JsNumber 70]> ∅).

Definition connectedState : State :=
  runIntents [(Connect, always (okJson yi4k))] initialState.

Definition recordingState : State :=
  runIntents [(Connect, always (okJson yi4k));
              (StartRecording, always (Resolved {| ok := true; json := JsonThrows |}))]
             initialState.

(** A device answer that reports an empty battery, and the state reached by
    connecting to a device that answers with an empty JSON object. *)
Definition zeroBattery : gmap string JsValue := <["battery" := JsNumber 0]> yi4k.

Definition bareConnectState : State :=
  finalState (always (okJson ∅)) (connectToCamera "192.168.42.1") initialState.

(** The camera information held in [connectedState] and [recordingState]. *)
Definition yiCamera (st : Status) : CameraInfo :=
  {| ip := "192.168.42.1"; model := JsString "Yi4K"; firmware := JsString "1.4.13";
     battery := JsNumber 70; status := st |}.

(** The part of the state that the session invariants speak about. *)
Definition session (s : State) : bool * bool * option CameraInfo :=
  (isConnected s, isRecording s, cameraInfo s).

(** ** Vocabulary for the properties of the whole component *)

(** The stream locator built in [connectToCamera] and [startLiveView]. *)
Definition liveUrl (addr : string) : string := "http://" +:+ addr +:+ ":8080/live".

Definition previewFailedMsg : string := "Live stream not available in demo mode".

(** [response.ok] after [.catch(() => ({ ok: true }))]: a rejected fetch
    counts as acknowledged, a resolved one by its status. *)
Definition acknowledged (answer : FetchResult) : bool :=
  match answer with
  | Rejected => true
  | Resolved response => ok response
  end.

(** The state changes of a successful [connectToCamera], in source order. *)
Definition connectedUpdate (addr : string) (ci : CameraInfo) (s : State) : State :=
  setStreamUrl (liveUrl addr)
    (setIsConnected true (setCameraInfo (fun _ => Some ci) (setError EmptyString s))).

(** Camera information as [connectToCamera] builds it for address [addr]. *)
Definition freshInfo (addr : string) (ci : CameraInfo) : Prop :=
  ip ci = addr /\ status ci = connected /\
  truthy (model ci) = true /\ truthy (firmware ci) = true /\ truthy (battery ci) = true.

(** The messages that the handlers can leave in the error banner. *)
Definition errorMessages : list string :=
  [EmptyString; connectFailedMsg; notFoundMsg; previewFailedMsg].

Definition validSettings (cs : CameraSettings) : Prop :=
  forall f, getField f cs ∈ options f.

(** Which controls the JSX offers in a given render: the address input is
    [disabled={isConnected}]; Connect and Scan are rendered while
    [!isConnected], Scan with [disabled={isScanning}]; Disconnect, the preview
    buttons and the settings panel are rendered while [isConnected]; Start
    Recording needs [!isRecording] and Stop Recording [isRecording]; a
    [<select>] only reports one of its [<option>] values. *)
Definition enabled (i : Intent) (s : State) : bool :=
  match i with
  | TypeAddress _ => negb (isConnected s)
  | Connect => negb (isConnected s)
  | ScanAndConnect => negb (isConnected s) && negb (isScanning s)
  | StartPreview | StopPreview | Disconnect => isConnected s
  | StartRecording => isConnected s && negb (isRecording s)
  | StopRecording => isConnected s && isRecording s
  | UpdateSettings f v => isConnected s && bool_decide (v ∈ options f)
  end.

(** The states a user can reach through the rendered controls when every
    handler has settled before the next control is used: each step is a
    complete handler run from the committed state.  States reached while an
    answer is still awaited are not covered (see [resume] below). *)
Inductive UiReachable : State -> Prop :=
| ui_initial : UiReachable initialState
| ui_step (s : State) (e : Env) (i : Intent) :
    UiReachable s -> enabled i s = true -> UiReachable (step e i s).

(** What holds of every state reached by intents, offered by the UI or
    not. *)
Definition wellFormed (s : State) : Prop :=
  isScanning s = false /\
  error s ∈ errorMessages /\
  forall ci, cameraInfo s = Some ci ->
    status ci <> disconnected /\
    streamUrl s = liveUrl (ip ci) /\
    truthy (model ci) = true /\ truthy (firmware ci) = true /\ truthy (battery ci) = true.

(** What holds in addition of the states reached through the UI. *)
Definition uiCoherent (s : State) : Prop :=
  render s = s /\
  validSettings (settings s) /\
  (forall ci, cameraInfo s = Some ci ->
     ip ci = cameraIP s /\ (status ci = recording <-> isRecording s = true)) /\
  (forall v, videoRef s = Some v -> src v = EmptyString \/ src v = streamUrl s).

(** A network on which every fetch is rejected except the [/camera-info] of
    [good]; [play()] resolves. *)
Definition playableHost (good : string) (fields : gmap string JsValue) : Env :=
  {| net := net (onlyHost good fields); playable := true |}.

(** The component as a transition system: [Outcome s i s'] lists the states
    [s'] in which the handler of intent [i], started from the committed state
    [s], can end.  Which one it is depends on the environment only. *)
Inductive Outcome (s : State) : Intent -> State -> Prop :=
| out_typed (v : string) :
    Outcome s (TypeAddress v) (setCameraIP v s)
| out_connect_failed (msg : string) :
    msg ∈ [EmptyString; connectFailedMsg] ->
    Outcome s Connect (setError msg s)
| out_connected (ci : CameraInfo) :
    freshInfo (cameraIP s) ci ->
    Outcome s Connect (connectedUpdate (cameraIP s) ci s)
| out_scan_failed (msg : string) :
    msg ∈ errorMessages -> (isConnected s = false -> msg = notFoundMsg) ->
    Outcome s ScanAndConnect (setIsScanning false (setError msg s))
| out_scan_connected (addr : string) (ci : CameraInfo) :
    freshInfo addr ci -> addr ∈ commonIPs ->
    Outcome s ScanAndConnect
      (setIsScanning false
         (setError (if isConnected s then EmptyString else notFoundMsg)
            (setCameraIP addr (connectedUpdate addr ci s))))
| out_preview_unchanged :
    Outcome s StartPreview s
| out_preview_playing (ci : CameraInfo) (v : Video) :
    cameraInfo s = Some ci -> videoRef s = Some v ->
    Outcome s StartPreview
      (setVideo (fun _ => Some {| src := liveUrl (ip ci); paused := false |}) s)
| out_preview_unplayable (ci : CameraInfo) (v : Video) :
    cameraInfo s = Some ci -> videoRef s = Some v ->
    Outcome s StartPreview
      (setError previewFailedMsg
         (setVideo (fun _ => Some {| src := liveUrl (ip ci); paused := paused v |}) s))
| out_preview_stopped :
    Outcome s StopPreview
      (setVideo (fmap (fun _ => {| src := EmptyString; paused := true |})) s)
| out_start_ignored :
    Outcome s StartRecording s
| out_started (ci : CameraInfo) :
    cameraInfo s = Some ci ->
    Outcome s StartRecording (setCameraInfo (withStatus recording) (setIsRecording true s))
| out_stop_ignored :
    Outcome s StopRecording s
| out_stopped (ci : CameraInfo) :
    cameraInfo s = Some ci ->
    Outcome s StopRecording (setCameraInfo (withStatus connected) (setIsRecording false s))
| out_disconnected :
    Outcome s Disconnect
      (setVideo (fmap (fun _ => {| src := EmptyString; paused := true |}))
         (setIsRecording false (setCameraInfo (fun _ => None) (setIsConnected false s))))
| out_settings (f : Field) (v : string) :
    Outcome s (UpdateSettings f v) (setSettings (updateField f v) s).

(** ** Answers that arrive late *)

(** The handlers are [async] and nothing serialises them: while a handler
    awaits its answer the component re-renders and the controls of the new
    render can be used.  When the answer arrives, the handler goes on as the
    closure of the render [r] it was created in, and its setters act on the
    state [s] that the component has by then.  [startLiveView],
    [startRecording] and [stopRecording] set no state before their [await], so
    for them the run on [s] is exactly that continuation.  [connectToCamera]
    clears the error message before its [await]; the run on [s] clears it on
    arrival instead, which can differ in the error message only. *)
Definition resume (e : Env) (i : Intent) (r s : State) : State :=
  render (finalState e (handler i r) s).

(** A device that answers every request with status 200. *)
Definition acknowledging : Env :=
  always (Resolved {| ok := true; json := JsonThrows |}).

(** Start Recording is pressed in [connectedState]; before the device
    answers, Disconnect is pressed ([droppedState]); then the answer comes
    ([lateStartState]); then Connect is pressed again ([reconnectedLate]). *)
Definition droppedState : State := step (always Rejected) Disconnect connectedState.

Definition lateStartState : State :=
  resume acknowledging StartRecording connectedState droppedState.

Definition reconnectedLate : State := step (always (okJson yi4k)) Connect lateStartState.

(** An address is typed and Connect pressed ([typedFirst]); before the device
    answers, another address is typed ([typedSecond]); then the answer comes
    ([lateConnectState]). *)
Definition typedFirst : State := step (always Rejected) (TypeAddress "10.0.0.7") initialState.

Definition typedSecond : State := step (always Rejected) (TypeAddress "10.0.0.8") typedFirst.

Definition lateConnectState : State :=
  resume (always (okJson yi4k)) Connect typedFirst typedSecond.

(** Start Preview is pressed in [connectedState]; before the device answers,
    the user disconnects and connects to another camera ([otherCameraState]);
    then the answer comes ([latePreviewState]). *)
Definition otherCameraState : State :=
  step (always (okJson yi4k)) Connect
    (step (always Rejected) (TypeAddress "10.0.0.7") droppedState).

Definition latePreviewState : State :=
  resume (playableHost "192.168.42.1" yi4k) StartPreview connectedState otherCameraState.

(** * Properties *)

Arguments infoRequest : simpl never.
Arguments previewRequest : simpl never.
Arguments startRecordRequest : simpl never.
Arguments stopRecordRequest : simpl never.

Ltac unfold_monad :=
  cbv [mbind M_bind bind mret M_ret ret modify get fetch play fetchOrSimulate];
  cbn [bindProg run].

Ltac unfold_exec := unfold result, requests, finalState.

(** ** Running composed handlers *)

Lemma run_bindProg {A B : Type} (e : Env) (p : Prog A) (f : A -> Prog B) :
  forall n,
    run e n (bindProg p f) =
    let '(a, log) := run e n p in
    let '(b, log') := run e (n + length log) (f a) in
    (b, log ++ log').
Proof.
  induction p as [a | rq k IH | k IH]; intros n; cbn [bindProg run].
  - rewrite Nat.add_0_r. cbn. by destruct (run e n (f a)).
  - rewrite IH. destruct (run e (S n) (k (net e n rq))) as [a log]. cbn [length].
    replace (n + S (length log)) with (S n + length log) by lia.
    by destruct (run e (S n + length log) (f a)).
  - apply IH.
Qed.

Lemma run_bind {A B : Type} (e : Env) (n : nat) (m : M A) (f : A -> M B) (s : State) :
  run e n ((m ≫= f) s) =
  let '((a, s'), log) := run e n (m s) in
  let '(b, log') := run e (n + length log) (f a s') in
  (b, log ++ log').
Proof.
  cbv [mbind M_bind bind]. rewrite run_bindProg.
  by destruct (run e n (m s)) as [[a s'] log].
Qed.

Lemma run_modify (e : Env) (n : nat) (f : State -> State) (s : State) :
  run e n (modify f s) = ((tt, f s), []).
Proof. reflexivity. Qed.

(** ** connectToCamera *)

Lemma connect_refused (e : Env) (n : nat) (addr : string) (s : State) :
  accepts (net e n (infoRequest addr)) = false ->
  exists msg, run e n (connectToCamera addr s) = ((false, setError msg s), [infoRequest addr]).
Proof.
  unfold connectToCamera, connectCatch. unfold_monad.
  destruct (net e n (infoRequest addr)) as [|[[] [|[]]]]; cbn; intros H;
    try discriminate; by eexists.
Qed.

Lemma connect_accepted (e : Env) (n : nat) (addr : string) (s : State) :
  accepts (net e n (infoRequest addr)) = true ->
  exists ci, ip ci = addr /\ status ci = connected /\
    run e n (connectToCamera addr s) =
    ((true, setStreamUrl ("http://" +:+ addr +:+ ":8080/live")
              (setIsConnected true (setCameraInfo (fun _ => Some ci) (setError EmptyString s)))),
     [infoRequest addr]).
Proof.
  unfold connectToCamera, connectCatch. unfold_monad.
  destruct (net e n (infoRequest addr)) as [|[[] [|[]]]]; cbn; intros H;
    try discriminate; eexists; (split; [|split]); try reflexivity; reflexivity.
Qed.


(** A 200 answer whose body is the JSON value [null] makes [info.model]
    throw: the [catch] block runs and the connection fails. *)
Lemma connect_null_body (e : Env) (addr : string) (s : State) :
  net e 0 (infoRequest addr) = Resolved {| ok := true; json := JsonValue JsonNull |} ->
  exec e (connectToCamera addr) s = ((false, setError connectFailedMsg s), [infoRequest addr]).
Proof.
  intros Hnet. unfold exec, connectToCamera, connectCatch. unfold_monad.
  rewrite Hnet. reflexivity.
Qed.

(** What [connectToCamera] stores when the device answers 200 with a JSON
    object: every field goes through [||] with the literal fallback. *)
Lemma connect_okJson (e : Env) (addr : string) (s : State) (fields : gmap string JsValue) :
  net e 0 (infoRequest addr) = okJson fields ->
  exec e (connectToCamera addr) s =
  ((true,
    setStreamUrl ("http://" +:+ addr +:+ ":8080/live")
      (setIsConnected true
         (setCameraInfo (fun _ => Some
            {| ip := addr;
               model := Js.or (default JsUndefined (fields !! "model")) (JsString "Xiaomi Yi Camera");
               firmware := Js.or (default JsUndefined (fields !! "firmware")) (JsString "1.4.13");
               battery := Js.or (default JsUndefined (fields !! "battery")) (JsNumber 85);
               status := connected |})
            (setError EmptyString s)))),
   [infoRequest addr]).
Proof.
  intros Hnet. unfold exec, connectToCamera. unfold_monad. rewrite Hnet. reflexivity.
Qed.

(** C7, as the code has it.  When [/camera-info] answers 200 with a JSON
    object, [connectToCamera] succeeds whatever fields are present, and each
    missing field is replaced by the literal written in the source: model
    "Xiaomi Yi Camera", firmware "1.4.13", battery 85 (not "Unknown Camera",
    "unknown" and 0).  Fields that are present with a truthy value are
    stored as reported. *)
Theorem connect_missing_fields_defaults
    (e : Env) (addr : string) (s : State) (fields : gmap string JsValue) :
  net e 0 (infoRequest addr) = okJson fields ->
  result e (connectToCamera addr) s = true /\
  isConnected (finalState e (connectToCamera addr) s) = true /\
  exists ci,
    cameraInfo (finalState e (connectToCamera addr) s) = Some ci /\
    ip ci = addr /\ status ci = connected /\
    (fields !! "model" = None -> model ci = JsString "Xiaomi Yi Camera") /\
    (fields !! "firmware" = None -> firmware ci = JsString "1.4.13") /\
    (fields !! "battery" = None -> battery ci = JsNumber 85) /\
    (forall v, fields !! "model" = Some v -> truthy v = true -> model ci = v) /\
    (forall v, fields !! "firmware" = Some v -> truthy v = true -> firmware ci = v) /\
    (forall v, fields !! "battery" = Some v -> truthy v = true -> battery ci = v).
Proof.
  intros Hnet. unfold_exec. rewrite (connect_okJson e addr s fields Hnet). cbn.
  split; [reflexivity|]. split; [reflexivity|].
  eexists. split; [reflexivity|]. cbn.
  repeat split; try (intros ->; reflexivity);
    intros v -> Hv; cbn; unfold Js.or; by rewrite Hv.
Qed.

Lemma connect_missing_fields_defaults_witness :
  net (always (okJson yi4k)) 0 (infoRequest "192.168.42.1") = okJson yi4k /\
  result (always (okJson yi4k)) (connectToCamera "192.168.42.1") initialState = true /\
  battery <$> cameraInfo (finalState (always (okJson yi4k)) (connectToCamera "192.168.42.1") initialState)
    = Some (JsNumber 70) /\
  firmware <$> cameraInfo (finalState (always (okJson yi4k)) (connectToCamera "192.168.42.1") initialState)
    = Some (JsString "1.4.13").
Proof.
  split; [reflexivity|].
  destruct (connect_missing_fields_defaults (always (okJson yi4k)) "192.168.42.1"
              initialState yi4k eq_refl)
    as (Hres & _ & ci & Hci & _ & _ & _ & Hfw & _ & _ & _ & Hbat).
  split; [exact Hres|]. rewrite Hci. cbn. split.
  - f_equal. apply (Hbat (JsNumber 70)); reflexivity.
  - f_equal. apply Hfw. reflexivity.
Defined.

(** C7 as the specification words it fails: with an empty JSON object as the
    answer, the stored model, firmware and battery are the source's literals,
    none of which is the value the specification documents. *)
Lemma connect_defaults_counterexample :
  model <$> cameraInfo bareConnectState = Some (JsString "Xiaomi Yi Camera") /\
  model <$> cameraInfo bareConnectState <> Some (JsString "Unknown Camera") /\
  firmware <$> cameraInfo bareConnectState = Some (JsString "1.4.13") /\
  firmware <$> cameraInfo bareConnectState <> Some (JsString "unknown") /\
  battery <$> cameraInfo bareConnectState = Some (JsNumber 85) /\
  battery <$> cameraInfo bareConnectState <> Some (JsNumber 0).
Proof. vm_compute. repeat split; congruence. Qed.

(** C10.  When [/camera-info] answers 200 and the body reports
    [battery: 0], the stored battery is the fallback 85: [0] is falsy, so
    [info.battery || 85] cannot tell it from an absent field. *)
Theorem connect_zero_battery_reads_85
    (e : Env) (addr : string) (s : State) (fields : gmap string JsValue) :
  net e 0 (infoRequest addr) = okJson fields ->
  fields !! "battery" = Some (JsNumber 0) ->
  battery <$> cameraInfo (finalState e (connectToCamera addr) s) = Some (JsNumber 85).
Proof.
  intros Hnet Hbat. unfold_exec. rewrite (connect_okJson e addr s fields Hnet). cbn.
  by rewrite Hbat.
Qed.

Lemma connect_zero_battery_reads_85_witness :
  net (always (okJson zeroBattery)) 0 (infoRequest "192.168.42.1") = okJson zeroBattery /\
  zeroBattery !! "battery" = Some (JsNumber 0) /\
  battery <$> cameraInfo
    (finalState (always (okJson zeroBattery)) (connectToCamera "192.168.42.1") initialState)
    = Some (JsNumber 85).
Proof.
  split; [reflexivity|]. split; [reflexivity|].
  apply (connect_zero_battery_reads_85 (always (okJson zeroBattery)) "192.168.42.1"
           initialState zeroBattery); reflexivity.
Defined.

(** ** Local operations: stopLiveView, disconnect, settings *)

Lemma stopLiveView_exec (e : Env) (s : State) :
  exec e stopLiveView s =
  ((tt, setVideo (fmap (fun _ => {| src := EmptyString; paused := true |})) s), []).
Proof. reflexivity. Qed.

Lemma disconnect_exec (e : Env) (s : State) :
  exec e disconnect s =
  ((tt, setVideo (fmap (fun _ => {| src := EmptyString; paused := true |}))
          (setIsRecording false (setCameraInfo (fun _ => None) (setIsConnected false s)))),
   []).
Proof. reflexivity. Qed.

(** C8.  From every state and in every environment, [disconnect] issues no
    HTTP request and leaves the session disconnected, without camera
    information and not recording; a mounted video element is paused with its
    source cleared, and the next render unmounts it.  The outcome does not
    depend on the environment, so no device acknowledgement is involved. *)
Theorem disconnect_resets_session (e : Env) (s : State) :
  requests e disconnect s = [] /\
  isConnected (finalState e disconnect s) = false /\
  cameraInfo (finalState e disconnect s) = None /\
  isRecording (finalState e disconnect s) = false /\
  videoRef (finalState e disconnect s)
    = (fun _ => {| src := EmptyString; paused := true |}) <$> videoRef s /\
  videoRef (step e Disconnect s) = None /\
  (forall e', finalState e' disconnect s = finalState e disconnect s).
Proof.
  unfold step, handler. unfold_exec. rewrite disconnect_exec. cbn.
  repeat split; reflexivity.
Qed.

(** C9.  [stopLiveView] issues no HTTP request, and stopping the preview
    twice gives the same state as stopping it once, both for the bare handler
    and for the intent followed by its re-render. *)
Theorem stopPreview_local_idempotent (e e' : Env) (s : State) :
  requests e stopLiveView s = [] /\
  finalState e' stopLiveView (finalState e stopLiveView s) = finalState e stopLiveView s /\
  step e' StopPreview (step e StopPreview s) = step e StopPreview s.
Proof.
  unfold step, handler. unfold_exec. rewrite !stopLiveView_exec. cbn.
  split; [reflexivity|]. destruct s as [c sc rc ci addr su err cs [v|]]; cbn.
  - split; [reflexivity|]. by destruct c.
  - split; [reflexivity|]. by destruct c.
Qed.

(** C5, as the code has it.  The settings handlers validate nothing: for
    every field and every string, inside the enumerated domain or not, the
    string is stored in that field, the other two fields and the rest of the
    state (the error message included) are unchanged, and no HTTP request is
    issued. *)
Theorem updateSettings_stores_any_value (e : Env) (f : Field) (v : string) (s : State) :
  requests e (updateSettings f v) s = [] /\
  getField f (settings (finalState e (updateSettings f v) s)) = v /\
  (forall g, g <> f ->
     getField g (settings (finalState e (updateSettings f v) s)) = getField g (settings s)) /\
  finalState e (updateSettings f v) s = setSettings (updateField f v) s /\
  error (finalState e (updateSettings f v) s) = error s.
Proof.
  unfold_exec. cbn. split; [reflexivity|]. split; [by destruct f|].
  split; [|split; reflexivity].
  intros g Hg. destruct f, g; cbn; congruence.
Qed.

(** C5 as the specification words it fails: resolution "9999x9999" is not
    one of the offered resolutions, yet it replaces the stored resolution and
    no error is recorded. *)
Lemma updateSettings_invalid_counterexample :
  ("9999x9999" ∉ options Resolution) /\
  resolution (settings initialState) = "1920x1080" /\
  resolution (settings
    (step (always Rejected) (UpdateSettings Resolution "9999x9999") initialState))
    = "9999x9999" /\
  error (step (always Rejected) (UpdateSettings Resolution "9999x9999") initialState) = EmptyString.
Proof.
  split; [|repeat split; reflexivity].
  cbn. rewrite !elem_of_cons, elem_of_nil. intros H.
  repeat (destruct H as [H|H]; [discriminate H|]). exact H.
Qed.

(** The enumerated domains are the option lists of the [<select>] controls:
    values picked from them keep the settings inside the domains. *)
Lemma updateSettings_option_keeps_domain (e : Env) (f g : Field) (v : string) (s : State) :
  v ∈ options f ->
  getField g (settings s) ∈ options g ->
  getField g (settings (finalState e (updateSettings f v) s)) ∈ options g.
Proof.
  intros Hv Hs. unfold_exec. cbn. destruct f, g; cbn in *; assumption.
Qed.

(** ** Recording commands *)

(** Both recording handlers return at once, without any effect, when the
    snapshot holds no camera information. *)
Lemma startRecording_no_camera (e : Env) (r s : State) :
  cameraInfo r = None -> exec e (startRecording r) s = ((tt, s), []).
Proof. intros Hr. unfold exec, startRecording. by rewrite Hr. Qed.

Lemma stopRecording_no_camera (e : Env) (r s : State) :
  cameraInfo r = None -> exec e (stopRecording r) s = ((tt, s), []).
Proof. intros Hr. unfold exec, stopRecording. by rewrite Hr. Qed.

(** With camera information, one request is issued; the state changes when
    the response is OK or when the fetch was rejected (which the handler
    replaces by [{ ok: true }]), and is left alone on a non-OK response. *)
Lemma startRecording_exec (e : Env) (r s : State) (ci : CameraInfo) :
  cameraInfo r = Some ci ->
  exec e (startRecording r) s =
  ((tt, match net e 0 (startRecordRequest (ip ci) (settings r)) with
        | Resolved {| ok := false |} => s
        | _ => setCameraInfo (withStatus recording) (setIsRecording true s)
        end),
   [startRecordRequest (ip ci) (settings r)]).
Proof.
  intros Hr. unfold exec, startRecording. rewrite Hr. unfold_monad.
  by destruct (net e 0 (startRecordRequest (ip ci) (settings r))) as [|[[] ?]].
Qed.

Lemma stopRecording_exec (e : Env) (r s : State) (ci : CameraInfo) :
  cameraInfo r = Some ci ->
  exec e (stopRecording r) s =
  ((tt, match net e 0 (stopRecordRequest (ip ci)) with
        | Resolved {| ok := false |} => s
        | _ => setCameraInfo (withStatus connected) (setIsRecording false s)
        end),
   [stopRecordRequest (ip ci)]).
Proof.
  intros Hr. unfold exec, stopRecording. rewrite Hr. unfold_monad.
  by destruct (net e 0 (stopRecordRequest (ip ci))) as [|[[] ?]].
Qed.

(** C1, as the code has it.  For a stop command issued with camera
    information at hand: a non-OK response leaves the whole state as it was
    (still recording, and nothing marks the state as uncertain or failed); a
    rejected fetch, which covers network failures and timeouts, is taken for
    an acknowledgement, so the recording flag becomes false and the status
    "connected", as after a 200. *)
Theorem stopRecording_on_failure (e : Env) (r s : State) (ci : CameraInfo) :
  cameraInfo r = Some ci ->
  (forall response,
     net e 0 (stopRecordRequest (ip ci)) = Resolved response -> ok response = false ->
     finalState e (stopRecording r) s = s) /\
  (net e 0 (stopRecordRequest (ip ci)) = Rejected ->
     isRecording (finalState e (stopRecording r) s) = false /\
     cameraInfo (finalState e (stopRecording r) s) = withStatus connected (cameraInfo s) /\
     isConnected (finalState e (stopRecording r) s) = isConnected s /\
     error (finalState e (stopRecording r) s) = error s).
Proof.
  intros Hr. unfold_exec. rewrite (stopRecording_exec e r s ci Hr). cbn. split.
  - intros [o j] -> Hok. cbn in Hok. by rewrite Hok.
  - intros ->. repeat split; reflexivity.
Qed.

Lemma stopRecording_on_failure_witness :
  cameraInfo recordingState = Some (yiCamera recording) /\
  finalState (always httpError) (stopRecording recordingState) recordingState = recordingState /\
  isRecording (finalState (always Rejected) (stopRecording recordingState) recordingState) = false.
Proof.
  split; [reflexivity|]. split.
  - apply (stopRecording_on_failure (always httpError) recordingState recordingState
             (yiCamera recording) eq_refl)
      with (response := {| ok := false; json := JsonThrows |}); reflexivity.
  - apply (stopRecording_on_failure (always Rejected) recordingState recordingState
             (yiCamera recording) eq_refl).
    reflexivity.
Defined.

(** C1 as the specification words it fails: in a recording session, a stop
    command whose fetch is rejected moves the session to connected with
    recording off. *)
Lemma stopRecording_rejected_counterexample :
  isConnected recordingState = true /\
  isRecording recordingState = true /\
  net (always Rejected) 0 (stopRecordRequest "192.168.42.1") = Rejected /\
  isConnected (step (always Rejected) StopRecording recordingState) = true /\
  isRecording (step (always Rejected) StopRecording recordingState) = false /\
  status <$> cameraInfo (step (always Rejected) StopRecording recordingState) = Some connected.
Proof. vm_compute. repeat split; reflexivity. Qed.

(** C2, as the code has it.  For a start command issued with camera
    information at hand: a non-OK response leaves the whole state as it was, so
    the recording flag is untouched but no error is recorded either; a rejected
    fetch is taken for an acknowledgement, so the recording flag becomes true
    and the status "recording". *)
Theorem startRecording_on_failure (e : Env) (r s : State) (ci : CameraInfo) :
  cameraInfo r = Some ci ->
  (forall response,
     net e 0 (startRecordRequest (ip ci) (settings r)) = Resolved response ->
     ok response = false ->
     finalState e (startRecording r) s = s) /\
  (net e 0 (startRecordRequest (ip ci) (settings r)) = Rejected ->
     isRecording (finalState e (startRecording r) s) = true /\
     cameraInfo (finalState e (startRecording r) s) = withStatus recording (cameraInfo s) /\
     isConnected (finalState e (startRecording r) s) = isConnected s /\
     error (finalState e (startRecording r) s) = error s).
Proof.
  intros Hr. unfold_exec. rewrite (startRecording_exec e r s ci Hr). cbn. split.
  - intros [o j] -> Hok. cbn in Hok. by rewrite Hok.
  - intros ->. repeat split; reflexivity.
Qed.

Lemma startRecording_on_failure_witness :
  cameraInfo connectedState = Some (yiCamera connected) /\
  finalState (always httpError) (startRecording connectedState) connectedState = connectedState /\
  isRecording (finalState (always Rejected) (startRecording connectedState) connectedState) = true.
Proof.
  split; [reflexivity|]. split.
  - apply (startRecording_on_failure (always httpError) connectedState connectedState
             (yiCamera connected) eq_refl)
      with (response := {| ok := false; json := JsonThrows |}); reflexivity.
  - apply (startRecording_on_failure (always Rejected) connectedState connectedState
             (yiCamera connected) eq_refl).
    reflexivity.
Defined.

(** C2 as the specification words it fails: in a connected session that is
    not recording, a rejected start command sets the recording flag, and a
    start command answered with an error status records no error. *)
Lemma startRecording_failure_counterexample :
  isConnected connectedState = true /\
  isRecording connectedState = false /\
  isRecording (step (always Rejected) StartRecording connectedState) = true /\
  error (step (always Rejected) StartRecording connectedState) = EmptyString /\
  error (step (always httpError) StartRecording connectedState) = EmptyString.
Proof. vm_compute. repeat split; reflexivity. Qed.

(** ** Scanning *)

(** The loop issues one [/camera-info] request per attempted candidate, in
    list order.  If some candidate is accepted, the loop ends connected to the
    first such candidate, whose address is stored in [cameraIP]; otherwise the
    session part of the state and [cameraIP] are as before the loop. *)
Lemma scanLoop_spec (e : Env) (ips : list string) :
  forall (n : nat) (s : State),
    exists s',
      run e n (scanLoop ips s) = ((tt, s'), infoRequest <$> scanAttempts e n ips) /\
      isRecording s' = isRecording s /\
      match scanFound e n ips with
      | Some addr =>
          cameraIP s' = addr /\ isConnected s' = true /\
          exists ci, cameraInfo s' = Some ci /\ ip ci = addr /\ status ci = connected
      | None => session s' = session s /\ cameraIP s' = cameraIP s
      end.
Proof.
  induction ips as [|addr rest IH]; intros n s; cbn [scanLoop scanAttempts scanFound].
  - exists s. repeat split; reflexivity.
  - rewrite run_bind.
    destruct (accepts (net e n (infoRequest addr))) eqn:Hacc.
    + destruct (connect_accepted e n addr s Hacc) as (ci & Hip & Hst & ->).
      eexists. split; [reflexivity|]. cbn. split; [reflexivity|].
      split; [reflexivity|]. split; [reflexivity|]. by exists ci.
    + destruct (connect_refused e n addr s Hacc) as (msg & ->).
      destruct (IH (S n) (setError msg s)) as (s' & Hrun & Hrec & Hpost).
      exists s'. cbn [length]. replace (n + 1) with (S n) by lia. rewrite Hrun.
      split; [reflexivity|]. split; [exact Hrec|].
      destruct (scanFound e (S n) rest); [exact Hpost|].
      destruct Hpost as [Hsess Hip]. by split.
Qed.

(** The attempted candidates are an initial segment of the list: nothing is
    skipped or reordered. *)
Lemma scanAttempts_prefix (e : Env) (ips : list string) :
  forall n, scanAttempts e n ips `prefix_of` ips.
Proof.
  induction ips as [|addr rest IH]; intros n; cbn.
  - done.
  - destruct (accepts (net e n (infoRequest addr))).
    + by apply prefix_cons, prefix_nil.
    + apply prefix_cons, IH.
Qed.

(** The candidate a scan settles on is the first accepted one: it is the
    last attempt, and every earlier candidate was tried and refused. *)
Lemma scanFound_first (e : Env) (ips : list string) :
  forall n addr,
    scanFound e n ips = Some addr ->
    exists k,
      ips !! k = Some addr /\
      accepts (net e (n + k) (infoRequest addr)) = true /\
      scanAttempts e n ips = take (S k) ips /\
      forall j a, j < k -> ips !! j = Some a ->
                  accepts (net e (n + j) (infoRequest a)) = false.
Proof.
  induction ips as [|a0 rest IH]; intros n addr; cbn [scanFound scanAttempts].
  - discriminate.
  - destruct (accepts (net e n (infoRequest a0))) eqn:Hacc.
    + intros [= <-]. exists 0. rewrite Nat.add_0_r. cbn. rewrite take_0.
      repeat split; try done. intros j a Hj. lia.
    + intros Hfound. destruct (IH (S n) addr Hfound) as (k & Hk & Hok & Htake & Hbefore).
      exists (S k). replace (n + S k) with (S n + k) by lia.
      split; [exact Hk|]. split; [exact Hok|]. split; [by rewrite Htake|].
      intros [|j] a Hj Ha.
      * cbn in Ha. injection Ha as <-. by rewrite Nat.add_0_r.
      * replace (n + S j) with (S n + j) by lia. apply Hbefore; [lia|exact Ha].
Qed.

(** A scan finds nothing exactly when every candidate was tried and
    refused. *)
Lemma scanFound_none (e : Env) (ips : list string) :
  forall n,
    scanFound e n ips = None <->
    (forall j a, ips !! j = Some a -> accepts (net e (n + j) (infoRequest a)) = false).
Proof.
  induction ips as [|a0 rest IH]; intros n; cbn [scanFound].
  - split; [|done]. intros _ j a Hj. by destruct j.
  - destruct (accepts (net e n (infoRequest a0))) eqn:Hacc.
    + split; [discriminate|]. intros Hall.
      specialize (Hall 0 a0 eq_refl). rewrite Nat.add_0_r in Hall. congruence.
    + rewrite IH. split.
      * intros Hall [|j] a Ha.
        -- cbn in Ha. injection Ha as <-. by rewrite Nat.add_0_r.
        -- replace (n + S j) with (S n + j) by lia. by apply Hall.
      * intros Hall j a Ha. replace (S n + j) with (n + S j) by lia. by apply Hall.
Qed.

Lemma scanAttempts_none (e : Env) (ips : list string) :
  forall n, scanFound e n ips = None -> scanAttempts e n ips = ips.
Proof.
  induction ips as [|a0 rest IH]; intros n; cbn; [done|].
  destruct (accepts (net e n (infoRequest a0))); [discriminate|].
  intros H. by rewrite IH.
Qed.

(** [scanForCameras] around the loop: the "not found" message is chosen by
    the snapshot's [isConnected], not by the outcome of the loop. *)
Lemma scanCandidates_exec (e : Env) (ips : list string) (r s : State) :
  exec e (scanCandidates ips r) s =
  let after := run e 0 (scanLoop ips (setError EmptyString (setIsScanning true s))) in
  ((tt, setIsScanning false
          (if isConnected r then after.1.2 else setError notFoundMsg after.1.2)),
   after.2).
Proof.
  unfold exec, scanCandidates.
  rewrite run_bind, run_modify. cbn [length app Nat.add].
  rewrite run_bind, run_modify. cbn [length app Nat.add].
  rewrite run_bind.
  destruct (run e 0 (scanLoop ips (setError EmptyString (setIsScanning true s)))) as [[[] s1] log].
  rewrite run_bind. destruct (isConnected r); cbn; by rewrite app_nil_r.
Qed.

(** The scan as a whole: requests go to the attempted candidates in list
    order; when a candidate is accepted the session ends connected to it with
    its address in [cameraIP], and otherwise the session is as it was. *)
Lemma scanCandidates_spec (e : Env) (ips : list string) (r s : State) :
  requests e (scanCandidates ips r) s = infoRequest <$> scanAttempts e 0 ips /\
  match scanFound e 0 ips with
  | Some addr =>
      cameraIP (finalState e (scanCandidates ips r) s) = addr /\
      isConnected (finalState e (scanCandidates ips r) s) = true /\
      ip <$> cameraInfo (finalState e (scanCandidates ips r) s) = Some addr
  | None => session (finalState e (scanCandidates ips r) s) = session s
  end.
Proof.
  unfold_exec. rewrite scanCandidates_exec. cbn zeta.
  destruct (scanLoop_spec e ips 0 (setError EmptyString (setIsScanning true s)))
    as (s' & -> & Hrec & Hpost).
  cbn [fst snd]. split; [reflexivity|].
  destruct (scanFound e 0 ips) as [addr|].
  - destruct Hpost as (Hip & Hconn & ci & Hci & Hci_ip & _).
    destruct (isConnected r); cbn; rewrite Hci; cbn; by rewrite Hci_ip.
  - destruct Hpost as [Hsess _]. destruct (isConnected r); exact Hsess.
Qed.

(** Started from a render in which the session is disconnected, a scan always
    ends with the "not found" message, whether or not a camera was found. *)
Lemma scan_from_disconnected_sets_not_found (e : Env) (ips : list string) (r s : State) :
  isConnected r = false ->
  error (finalState e (scanCandidates ips r) s) = notFoundMsg.
Proof.
  intros Hr. unfold_exec. rewrite scanCandidates_exec, Hr. reflexivity.
Qed.

(** C3, evaluated on the hard-wired candidate list.  On a network where
    only the third candidate, 192.168.0.100, answers, a scan started from the
    initial render tries the three candidates in list order, connects to the
    third and stores its address; it nevertheless ends with the "not found"
    message, because [if (!isConnected)] reads the [isConnected] of the render
    the scan was started from. *)
Theorem scan_success_still_reports_not_found :
  requests (onlyHost "192.168.0.100" yi4k) (scanForCameras initialState) initialState
    = infoRequest <$> ["192.168.42.1"; "192.168.1.100"; "192.168.0.100"] /\
  scanFound (onlyHost "192.168.0.100" yi4k) 0 commonIPs = Some "192.168.0.100" /\
  isConnected (step (onlyHost "192.168.0.100" yi4k) ScanAndConnect initialState) = true /\
  cameraIP (step (onlyHost "192.168.0.100" yi4k) ScanAndConnect initialState)
    = "192.168.0.100" /\
  ip <$> cameraInfo (step (onlyHost "192.168.0.100" yi4k) ScanAndConnect initialState)
    = Some "192.168.0.100" /\
  error (step (onlyHost "192.168.0.100" yi4k) ScanAndConnect initialState) = notFoundMsg.
Proof. vm_compute. repeat split; reflexivity. Qed.

(** ** Session invariants over sequences of intents *)

Lemma consistent_session (s s' : State) :
  session s' = session s -> consistent s -> consistent s'.
Proof.
  unfold session, consistent. intros [= Hc Hr Hi]. by rewrite Hc, Hr, Hi.
Qed.

Lemma consistent_initial : consistent initialState.
Proof.
  split; cbn; [discriminate|]. split; [discriminate|]. by intros [ci Hci].
Qed.

(** The preview handler touches only the video element and the error
    message. *)
Lemma startLiveView_session (e : Env) (r s : State) :
  session (finalState e (startLiveView r) s) = session s.
Proof.
  unfold_exec. unfold exec, startLiveView.
  destruct (cameraInfo r) as [ci|]; [|reflexivity]. unfold_monad.
  destruct (net e 0 (previewRequest (ip ci) (resolution (settings r)))) as [|[[] j]];
    cbn; destruct (videoRef s) as [v|]; cbn; try reflexivity;
    destruct (playable e); reflexivity.
Qed.

Lemma render_session (s : State) : session (render s) = session s.
Proof. reflexivity. Qed.

Lemma render_idempotent (s : State) : render (render s) = render s.
Proof. destruct s as [[] sc rc ci addr su err cs [v|]]; reflexivity. Qed.

Lemma handler_consistent (e : Env) (i : Intent) (s : State) :
  consistent s -> consistent (finalState e (handler i s) s).
Proof.
  intros Hs. destruct i; cbn [handler].
  - (* TypeAddress *) by apply (consistent_session s).
  - (* Connect *)
    unfold_exec. unfold exec. rewrite run_bind.
    destruct (accepts (net e 0 (infoRequest (cameraIP s)))) eqn:Hacc.
    + destruct (connect_accepted e 0 (cameraIP s) s Hacc) as (ci & _ & _ & ->). cbn.
      split; [done|]. split; [by eexists|done].
    + destruct (connect_refused e 0 (cameraIP s) s Hacc) as (msg & ->). cbn.
      by apply (consistent_session s).
  - (* ScanAndConnect *)
    unfold_exec. unfold scanForCameras. rewrite scanCandidates_exec. cbn zeta.
    destruct (scanLoop_spec e commonIPs 0 (setError EmptyString (setIsScanning true s)))
      as (s' & -> & Hrec & Hpost).
    cbn [fst snd].
    assert (consistent s') as Hs'.
    { destruct (scanFound e 0 commonIPs).
      - destruct Hpost as (_ & Hconn & ci & Hci & _). split; [done|].
        rewrite Hconn, Hci. split; [by eexists|done].
      - destruct Hpost as [Hsess _]. by apply (consistent_session s). }
    destruct (isConnected s); by apply (consistent_session s').
  - (* StartPreview *) apply (consistent_session s); [apply startLiveView_session|done].
  - (* StopPreview *) by apply (consistent_session s).
  - (* StartRecording *)
    unfold_exec. destruct Hs as [Hrec Hconn].
    destruct (cameraInfo s) as [ci|] eqn:Hci.
    + rewrite (startRecording_exec e s s ci Hci). cbn.
      assert (isConnected s = true) as Hc by (apply Hconn; by eexists).
      destruct (net e 0 (startRecordRequest (ip ci) (settings s))) as [|[[] j]];
        split; cbn; rewrite ?Hci; cbn; try done; by rewrite <- Hci.
    + rewrite (startRecording_no_camera e s s Hci). cbn. split; [done|]. by rewrite Hci.
  - (* StopRecording *)
    unfold_exec. destruct Hs as [Hrec Hconn].
    destruct (cameraInfo s) as [ci|] eqn:Hci.
    + rewrite (stopRecording_exec e s s ci Hci). cbn.
      assert (isConnected s = true) as Hc by (apply Hconn; by eexists).
      destruct (net e 0 (stopRecordRequest (ip ci))) as [|[[] j]];
        split; cbn; rewrite ?Hci; cbn; try done; by rewrite <- Hci.
    + rewrite (stopRecording_no_camera e s s Hci). cbn. split; [done|]. by rewrite Hci.
  - (* Disconnect *)
    unfold_exec. rewrite disconnect_exec. cbn. split; [discriminate|].
    split; [discriminate|]. by intros [ci Hci].
  - (* UpdateSettings *) by apply (consistent_session s).
Qed.

Lemma step_consistent (e : Env) (i : Intent) (s : State) :
  consistent s -> consistent (step e i s).
Proof.
  intros Hs. unfold step. apply (consistent_session (finalState e (handler i s) s)).
  - apply render_session.
  - by apply handler_consistent.
Qed.

Lemma runIntents_consistent (l : list (Intent * Env)) :
  forall s, consistent s -> consistent (runIntents l s).
Proof.
  induction l as [|[i e] rest IH]; intros s Hs; cbn [runIntents]; [done|].
  by apply IH, step_consistent.
Qed.

(** Every state reached by intents is one that a render has committed. *)
Lemma runIntents_rendered (l : list (Intent * Env)) :
  forall s, render s = s -> render (runIntents l s) = runIntents l s.
Proof.
  induction l as [|[i e] rest IH]; intros s Hs; cbn [runIntents]; [done|].
  apply IH. unfold step. apply render_idempotent.
Qed.

(** For intents handled one at a time, each handler settling before the next
    intent is issued, in arbitrary environments and from the initial
    disconnected state: if the recording flag is set then the session is
    connected. *)
Theorem recording_implies_connected (l : list (Intent * Env)) :
  isRecording (runIntents l initialState) = true ->
  isConnected (runIntents l initialState) = true.
Proof.
  apply (runIntents_consistent l initialState consistent_initial).
Qed.

Lemma recording_implies_connected_witness :
  isRecording recordingState = true /\ isConnected recordingState = true.
Proof.
  split; [reflexivity|].
  apply (recording_implies_connected
           [(Connect, always (okJson yi4k));
            (StartRecording, always (Resolved {| ok := true; json := JsonThrows |}))]).
  reflexivity.
Defined.

(** The companion invariant of the data model: camera information is absent
    exactly in the disconnected states. *)
Lemma cameraInfo_iff_connected (l : list (Intent * Env)) :
  cameraInfo (runIntents l initialState) = None <->
  isConnected (runIntents l initialState) = false.
Proof.
  destruct (runIntents_consistent l initialState consistent_initial) as [_ Hiff].
  destruct (cameraInfo (runIntents l initialState)) as [ci|] eqn:Hci.
  - split; [discriminate|]. intros Hoff.
    assert (isConnected (runIntents l initialState) = true) as Hon by (apply Hiff; by eexists).
    congruence.
  - split; [|done]. intros _.
    destruct (isConnected (runIntents l initialState)); [|done].
    destruct Hiff as [Hsome _]. destruct (Hsome eq_refl) as [ci Hci']. discriminate.
Qed.

(** C6, as the code has it.  In every disconnected state reached by intents,
    [startRecording] returns at once: it issues no request and leaves the
    whole state unchanged, the error message included, so the call is ignored
    without any error being raised. *)
Theorem startRecording_disconnected_ignored (l : list (Intent * Env)) (e : Env) :
  isConnected (runIntents l initialState) = false ->
  exec e (startRecording (runIntents l initialState)) (runIntents l initialState)
    = ((tt, runIntents l initialState), []) /\
  step e StartRecording (runIntents l initialState) = runIntents l initialState.
Proof.
  intros Hoff. apply cameraInfo_iff_connected in Hoff.
  assert (exec e (startRecording (runIntents l initialState)) (runIntents l initialState)
          = ((tt, runIntents l initialState), [])) as Hexec
    by (by apply startRecording_no_camera).
  split; [exact Hexec|].
  unfold step, handler, finalState. rewrite Hexec. cbn.
  by apply runIntents_rendered.
Qed.

Lemma startRecording_disconnected_ignored_witness :
  isConnected (runIntents [] initialState) = false /\
  step (always Rejected) StartRecording (runIntents [] initialState)
    = runIntents [] initialState.
Proof.
  split; [reflexivity|].
  apply (startRecording_disconnected_ignored [] (always Rejected)). reflexivity.
Defined.

(** C6 as the specification words it fails: started in the initial
    disconnected state, [startRecording] raises no error; the error message is
    still empty afterwards. *)
Lemma startRecording_disconnected_counterexample :
  isConnected initialState = false /\
  result (always Rejected) (startRecording initialState) initialState = tt /\
  error (step (always Rejected) StartRecording initialState) = EmptyString.
Proof. repeat split; reflexivity. Qed.

(** ** Overlapping handlers *)

(** [startRecording] tests [cameraInfo] before the request only.  When its
    answer is acknowledged after the session has been disconnected, the
    handler still sets the recording flag, while its [setCameraInfo] updater
    finds no camera information and stores none. *)
Lemma late_start_sets_recording (e : Env) (r s : State) (ci : CameraInfo) :
  cameraInfo r = Some ci ->
  acknowledged (net e 0 (startRecordRequest (ip ci) (settings r))) = true ->
  isConnected s = false ->
  cameraInfo s = None ->
  isRecording (resume e StartRecording r s) = true /\
  isConnected (resume e StartRecording r s) = false /\
  cameraInfo (resume e StartRecording r s) = None.
Proof.
  intros Hr Hack Hoff Hnone. unfold resume, handler, finalState.
  rewrite (startRecording_exec e r s ci Hr). cbn [fst snd].
  destruct (net e 0 (startRecordRequest (ip ci) (settings r))) as [|[[] j]];
    try discriminate Hack; cbn; by rewrite Hoff, Hnone.
Qed.

(** C4, evaluated where the code breaks it.  From the initial state the
    intents Connect, Start Recording and Disconnect are issued through enabled
    controls, the Disconnect while the start command is still awaiting its
    answer.  The start request has gone to the connected camera; Disconnect
    leaves the session disconnected and not recording; when the device then
    acknowledges the start command, the handler sets the recording flag, and
    the session is recording while disconnected and without camera
    information. *)
Theorem late_start_answer_records_while_disconnected :
  connectedState = step (always (okJson yi4k)) Connect initialState /\
  enabled StartRecording connectedState = true /\
  requests acknowledging (startRecording connectedState) droppedState
    = [startRecordRequest "192.168.42.1" (settings connectedState)] /\
  enabled Disconnect connectedState = true /\
  isConnected droppedState = false /\
  isRecording droppedState = false /\
  isRecording lateStartState = true /\
  isConnected lateStartState = false /\
  cameraInfo lateStartState = None.
Proof. repeat split; reflexivity. Qed.

(** * Further properties of the handlers *)

(** ** connectToCamera, whatever the answer *)

Lemma or_truthy (a b : JsValue) : truthy b = true -> truthy (Js.or a b) = true.
Proof. intros Hb. unfold Js.or. by destruct (truthy a) eqn:Ha. Qed.

Lemma connect_refused_message (e : Env) (n : nat) (addr : string) (s : State) :
  accepts (net e n (infoRequest addr)) = false ->
  run e n (connectToCamera addr s) =
  ((false,
    setError (match net e n (infoRequest addr) with
              | Resolved {| ok := false |} => EmptyString
              | _ => connectFailedMsg
              end) s),
   [infoRequest addr]).
Proof.
  unfold connectToCamera, connectCatch. unfold_monad.
  destruct (net e n (infoRequest addr)) as [|[[] [|[]]]]; cbn; intros H;
    try discriminate; reflexivity.
Qed.

Lemma connect_accepted_fresh (e : Env) (n : nat) (addr : string) (s : State) :
  accepts (net e n (infoRequest addr)) = true ->
  exists ci, freshInfo addr ci /\
    run e n (connectToCamera addr s) = ((true, connectedUpdate addr ci s), [infoRequest addr]).
Proof.
  unfold connectToCamera, connectCatch, freshInfo. unfold_monad.
  destruct (net e n (infoRequest addr)) as [|[[] [|[]]]]; cbn; intros H;
    try discriminate;
    (eexists; split; [|reflexivity]); cbn;
    repeat split; try reflexivity; by apply or_truthy.
Qed.

(** X1.  Whatever the device answers, [connectToCamera] issues exactly one
    request, the GET of [/camera-info] at the given address, and it returns
    [true] exactly when the fetch resolved with an OK status and a body that
    parses to a JSON value other than [null]. *)
Theorem connect_one_request_and_verdict (e : Env) (addr : string) (s : State) :
  requests e (connectToCamera addr) s = [infoRequest addr] /\
  (result e (connectToCamera addr) s = true <->
   exists response info,
     net e 0 (infoRequest addr) = Resolved response /\
     ok response = true /\ json response = JsonValue info /\ info <> JsonNull).
Proof.
  unfold_exec. unfold exec.
  destruct (accepts (net e 0 (infoRequest addr))) eqn:Hacc.
  - destruct (connect_accepted_fresh e 0 addr s Hacc) as (ci & _ & ->). cbn.
    split; [reflexivity|]. split; [intros _|done].
    destruct (net e 0 (infoRequest addr)) as [|[o [|info]]]; cbn in Hacc; try discriminate.
    + by rewrite andb_false_r in Hacc.
    + exists {| ok := o; json := JsonValue info |}, info.
      destruct o; [|discriminate]. repeat split. by destruct info.
  - rewrite (connect_refused_message e 0 addr s Hacc). cbn.
    split; [reflexivity|]. split; [discriminate|].
    intros (response & info & Hnet & Hok & Hjson & Hinfo).
    rewrite Hnet in Hacc. cbn in Hacc. rewrite Hok, Hjson in Hacc.
    destruct info; [done|discriminate..].
Qed.





(** ** Scanning an arbitrary candidate list *)

Lemma scanLoop_shape (e : Env) (ips : list string) :
  forall (n : nat) (s : State),
    match scanFound e n ips with
    | Some addr =>
        exists ci, freshInfo addr ci /\
          (run e n (scanLoop ips s)).1.2 = setCameraIP addr (connectedUpdate addr ci s)
    | None =>
        (run e n (scanLoop ips s)).1.2 = s \/
        exists msg, msg ∈ [EmptyString; connectFailedMsg] /\
          (run e n (scanLoop ips s)).1.2 = setError msg s
    end.
Proof.
  induction ips as [|addr rest IH]; intros n s; cbn [scanLoop scanFound].
  - by left.
  - rewrite run_bind.
    destruct (accepts (net e n (infoRequest addr))) eqn:Hacc.
    + destruct (connect_accepted_fresh e n addr s Hacc) as (ci & Hci & ->).
      exists ci. split; [exact Hci|]. reflexivity.
    + rewrite (connect_refused_message e n addr s Hacc). cbn [length].
      replace (n + 1) with (S n) by lia.
      set (msg := match net e n (infoRequest addr) with
                  | Resolved {| ok := false |} => EmptyString
                  | _ => connectFailedMsg
                  end).
      assert (msg ∈ [EmptyString; connectFailedMsg]) as Hmsg.
      { unfold msg. destruct (net e n (infoRequest addr)) as [|[[] ?]];
          rewrite !elem_of_cons; auto. }
      specialize (IH (S n) (setError msg s)).
      destruct (run e (S n) (scanLoop rest (setError msg s))) as [[[] s1] log].
      cbn [fst snd] in *.
      destruct (scanFound e (S n) rest) as [found|].
      * destruct IH as (ci & Hci & ->). exists ci. split; [exact Hci|]. reflexivity.
      * right. destruct IH as [->|(msg' & Hmsg' & ->)].
        -- by exists msg.
        -- by exists msg'.
Qed.

Lemma scanCandidates_shape (e : Env) (ips : list string) (r s : State) :
  match scanFound e 0 ips with
  | Some addr =>
      exists ci, freshInfo addr ci /\
        finalState e (scanCandidates ips r) s =
        setIsScanning false
          (setError (if isConnected r then EmptyString else notFoundMsg)
             (setCameraIP addr (connectedUpdate addr ci s)))
  | None =>
      exists msg, msg ∈ errorMessages /\ (isConnected r = false -> msg = notFoundMsg) /\
        finalState e (scanCandidates ips r) s = setIsScanning false (setError msg s)
  end.
Proof.
  unfold_exec. rewrite scanCandidates_exec. cbn zeta. cbn [fst snd].
  pose proof (scanLoop_shape e ips 0 (setError EmptyString (setIsScanning true s))) as Hshape.
  destruct (scanFound e 0 ips) as [addr|].
  - destruct Hshape as (ci & Hci & ->). exists ci. split; [exact Hci|].
    by destruct (isConnected r).
  - assert (forall msg, msg ∈ [EmptyString; connectFailedMsg] -> msg ∈ errorMessages) as Hsub.
    { intros msg. unfold errorMessages. rewrite !elem_of_cons. tauto. }
    destruct Hshape as [->|(msg & Hmsg & ->)]; destruct (isConnected r) eqn:Hr.
    + exists EmptyString. repeat split; [apply Hsub; by left|done].
    + exists notFoundMsg. repeat split. unfold errorMessages. rewrite !elem_of_cons. tauto.
    + exists msg. repeat split; [by apply Hsub|done].
    + exists notFoundMsg. repeat split. unfold errorMessages. rewrite !elem_of_cons. tauto.
Qed.

(** The converse of [scanFound_first]. *)
Lemma scanFound_at (e : Env) (ips : list string) :
  forall n k addr,
    ips !! k = Some addr ->
    accepts (net e (n + k) (infoRequest addr)) = true ->
    (forall j a, j < k -> ips !! j = Some a ->
                 accepts (net e (n + j) (infoRequest a)) = false) ->
    scanFound e n ips = Some addr /\ scanAttempts e n ips = take (S k) ips.
Proof.
  induction ips as [|a0 rest IH]; intros n k addr Hk Hacc Hbefore; [done|].
  cbn [scanFound scanAttempts]. destruct k as [|k].
  - cbn in Hk. injection Hk as ->. rewrite Nat.add_0_r in Hacc. rewrite Hacc.
    cbn. by rewrite take_0.
  - assert (accepts (net e n (infoRequest a0)) = false) as ->.
    { rewrite <- (Nat.add_0_r n). apply Hbefore; [lia|done]. }
    assert (scanFound e (S n) rest = Some addr /\
            scanAttempts e (S n) rest = take (S k) rest) as [-> ->]; [|done].
    apply IH.
    + exact Hk.
    + by replace (S n + k) with (n + S k) by lia.
    + intros j a Hj Ha. replace (S n + j) with (n + S j) by lia.
      apply Hbefore; [lia|done].
Qed.

(** X4.  For every candidate list, the requests of a scan are
    [/camera-info] probes of an initial segment of the list, in list order:
    no candidate is skipped, reordered or probed twice, and nothing else is
    requested. *)
Theorem scan_probes_prefix_in_order (e : Env) (ips : list string) (r s : State) :
  requests e (scanCandidates ips r) s `prefix_of` (infoRequest <$> ips).
Proof.
  destruct (scanCandidates_spec e ips r s) as [-> _].
  destruct (scanAttempts_prefix e ips 0) as [rest Hrest].
  exists (infoRequest <$> rest). by rewrite Hrest at 1; rewrite fmap_app.
Qed.

(** X5.  If the candidate at position [k] is accepted when its turn comes and
    every earlier candidate is refused, the scan issues exactly the first
    [k+1] probes and ends connected to that candidate, with its address in
    the address input and in the camera information, the stream locator for
    it, the scanning flag off, and the recording flag and settings as
    before. *)
Theorem scan_connects_to_first_responder
    (e : Env) (ips : list string) (r s : State) (k : nat) (addr : string) :
  ips !! k = Some addr ->
  accepts (net e k (infoRequest addr)) = true ->
  (forall j a, j < k -> ips !! j = Some a -> accepts (net e j (infoRequest a)) = false) ->
  requests e (scanCandidates ips r) s = infoRequest <$> take (S k) ips /\
  isConnected (finalState e (scanCandidates ips r) s) = true /\
  cameraIP (finalState e (scanCandidates ips r) s) = addr /\
  ip <$> cameraInfo (finalState e (scanCandidates ips r) s) = Some addr /\
  streamUrl (finalState e (scanCandidates ips r) s) = liveUrl addr /\
  isScanning (finalState e (scanCandidates ips r) s) = false /\
  isRecording (finalState e (scanCandidates ips r) s) = isRecording s /\
  settings (finalState e (scanCandidates ips r) s) = settings s.
Proof.
  intros Hk Hacc Hbefore.
  destruct (scanFound_at e ips 0 k addr Hk Hacc Hbefore) as [Hfound Hatt].
  destruct (scanCandidates_spec e ips r s) as [-> _]. rewrite Hatt.
  split; [reflexivity|].
  pose proof (scanCandidates_shape e ips r s) as Hshape. rewrite Hfound in Hshape.
  destruct Hshape as (ci & (Hip & _) & ->). cbn. rewrite Hip.
  repeat split; reflexivity.
Qed.

Lemma scan_connects_to_first_responder_witness :
  commonIPs !! 2 = Some "192.168.0.100" /\
  requests (onlyHost "192.168.0.100" yi4k) (scanCandidates commonIPs initialState) initialState
    = infoRequest <$> commonIPs /\
  cameraIP (finalState (onlyHost "192.168.0.100" yi4k)
                       (scanCandidates commonIPs initialState) initialState)
    = "192.168.0.100".
Proof.
  split; [reflexivity|].
  destruct (scan_connects_to_first_responder (onlyHost "192.168.0.100" yi4k) commonIPs
              initialState initialState 2 "192.168.0.100" eq_refl eq_refl)
    as (Hreq & _ & Hip & _).
  - intros [|[|j]] a Hj Ha; [| |lia]; cbn in Ha; injection Ha as <-; reflexivity.
  - split; [exact Hreq|exact Hip].
Defined.

(** X6.  If every candidate is refused when its turn comes (in particular if
    the list is empty), the scan probes the whole list, and afterwards the
    connection flag, the recording flag, the camera information, the address
    input, the stream locator and the settings are as before and the scanning
    flag is off; when the scan was started from a disconnected render, the
    error message is "No Xiaomi Yi cameras found on network". *)
Theorem scan_exhausted_changes_nothing (e : Env) (ips : list string) (r s : State) :
  (forall j a, ips !! j = Some a -> accepts (net e j (infoRequest a)) = false) ->
  requests e (scanCandidates ips r) s = infoRequest <$> ips /\
  session (finalState e (scanCandidates ips r) s) = session s /\
  cameraIP (finalState e (scanCandidates ips r) s) = cameraIP s /\
  streamUrl (finalState e (scanCandidates ips r) s) = streamUrl s /\
  settings (finalState e (scanCandidates ips r) s) = settings s /\
  isScanning (finalState e (scanCandidates ips r) s) = false /\
  (isConnected r = false -> error (finalState e (scanCandidates ips r) s) = notFoundMsg).
Proof.
  intros Hall. assert (scanFound e 0 ips = None) as Hnone by (by apply scanFound_none).
  destruct (scanCandidates_spec e ips r s) as [-> _].
  rewrite (scanAttempts_none e ips 0 Hnone). split; [reflexivity|].
  pose proof (scanCandidates_shape e ips r s) as Hshape. rewrite Hnone in Hshape.
  destruct Hshape as (msg & _ & Hmsg & ->). cbn. repeat split. exact Hmsg.
Qed.

Lemma scan_exhausted_changes_nothing_witness :
  requests (always Rejected) (scanCandidates commonIPs initialState) recordingState
    = infoRequest <$> commonIPs /\
  session (finalState (always Rejected) (scanCandidates commonIPs initialState) recordingState)
    = session recordingState /\
  error (finalState (always Rejected) (scanCandidates commonIPs initialState) recordingState)
    = notFoundMsg.
Proof.
  destruct (scan_exhausted_changes_nothing (always Rejected) commonIPs
              initialState recordingState)
    as (Hreq & Hsess & _ & _ & _ & _ & Herr).
  - intros j a _. reflexivity.
  - split; [exact Hreq|]. split; [exact Hsess|]. apply Herr. reflexivity.
Defined.

(** ** The preview *)

Lemma startLiveView_no_camera (e : Env) (r s : State) :
  cameraInfo r = None -> exec e (startLiveView r) s = ((tt, s), []).
Proof. intros Hr. unfold exec, startLiveView. by rewrite Hr. Qed.

Lemma startLiveView_exec (e : Env) (r s : State) (ci : CameraInfo) :
  cameraInfo r = Some ci ->
  exec e (startLiveView r) s =
  ((tt,
    match videoRef s with
    | Some v =>
        if acknowledged (net e 0 (previewRequest (ip ci) (resolution (settings r)))) then
          if playable e
          then setVideo (fun _ => Some {| src := liveUrl (ip ci); paused := false |}) s
          else setError previewFailedMsg
                 (setVideo (fun _ => Some {| src := liveUrl (ip ci); paused := paused v |}) s)
        else s
    | None => s
    end),
   [previewRequest (ip ci) (resolution (settings r))]).
Proof.
  intros Hr. unfold exec, startLiveView. rewrite Hr. unfold_monad.
  destruct (net e 0 (previewRequest (ip ci) (resolution (settings r)))) as [|[[] j]];
    cbn; destruct (videoRef s) as [v|]; cbn; try reflexivity;
    destruct (playable e); reflexivity.
Qed.

(** X7.  Starting the preview never touches the session: the connection
    flag, recording flag, camera information, settings, address input, stream
    locator and scanning flag are as before, whatever the device answers.  It
    sends nothing when the render had no camera information, and otherwise
    exactly one POST of [/start-preview] to the camera of the render, carrying
    the resolution of the render's settings. *)
Theorem preview_keeps_session (e : Env) (r s : State) :
  session (finalState e (startLiveView r) s) = session s /\
  settings (finalState e (startLiveView r) s) = settings s /\
  cameraIP (finalState e (startLiveView r) s) = cameraIP s /\
  streamUrl (finalState e (startLiveView r) s) = streamUrl s /\
  isScanning (finalState e (startLiveView r) s) = isScanning s /\
  requests e (startLiveView r) s =
    match cameraInfo r with
    | Some ci => [previewRequest (ip ci) (resolution (settings r))]
    | None => []
    end.
Proof.
  unfold_exec. destruct (cameraInfo r) as [ci|] eqn:Hr.
  - rewrite (startLiveView_exec e r s ci Hr). cbn.
    destruct (videoRef s) as [v|]; [|done].
    destruct (acknowledged _); [|done]. by destruct (playable e).
  - by rewrite (startLiveView_no_camera e r s Hr).
Qed.

(** X8.  With camera information in the render and a video element mounted,
    a preview command that is acknowledged (a rejected fetch counts as
    acknowledged) points the video element at
    [http://<camera address>:8080/live]; the element plays if [play()]
    resolves, and otherwise the error message becomes "Live stream not
    available in demo mode". *)
Theorem preview_started (e : Env) (r s : State) (ci : CameraInfo) (v : Video) :
  cameraInfo r = Some ci ->
  videoRef s = Some v ->
  acknowledged (net e 0 (previewRequest (ip ci) (resolution (settings r)))) = true ->
  videoRef (finalState e (startLiveView r) s)
    = Some {| src := liveUrl (ip ci); paused := if playable e then false else paused v |} /\
  error (finalState e (startLiveView r) s)
    = (if playable e then error s else previewFailedMsg).
Proof.
  intros Hr Hv Hack. unfold_exec. rewrite (startLiveView_exec e r s ci Hr). cbn.
  rewrite Hv, Hack. by destruct (playable e).
Qed.

Lemma preview_started_witness :
  cameraInfo connectedState = Some (yiCamera connected) /\
  videoRef connectedState = Some freshVideo /\
  videoRef (finalState (playableHost "192.168.42.1" yi4k)
                       (startLiveView connectedState) connectedState)
    = Some {| src := "http://192.168.42.1:8080/live"; paused := false |} /\
  error (finalState (always Rejected) (startLiveView connectedState) connectedState)
    = previewFailedMsg.
Proof.
  split; [reflexivity|]. split; [reflexivity|]. split.
  - apply (preview_started (playableHost "192.168.42.1" yi4k) connectedState connectedState
             (yiCamera connected) freshVideo eq_refl eq_refl eq_refl).
  - apply (preview_started (always Rejected) connectedState connectedState
             (yiCamera connected) freshVideo eq_refl eq_refl eq_refl).
Defined.

(** X9.  A preview command leaves the whole state as it was, error message
    included, when no video element is mounted or when the device answers
    [/start-preview] with a non-OK status: a refused preview is not
    reported. *)
Theorem preview_refused_is_silent (e : Env) (r s : State) (ci : CameraInfo) :
  cameraInfo r = Some ci ->
  videoRef s = None \/
  acknowledged (net e 0 (previewRequest (ip ci) (resolution (settings r)))) = false ->
  finalState e (startLiveView r) s = s.
Proof.
  intros Hr Hcase. unfold_exec. rewrite (startLiveView_exec e r s ci Hr). cbn.
  destruct Hcase as [->| ->]; [done|]. by destruct (videoRef s).
Qed.

Lemma preview_refused_is_silent_witness :
  cameraInfo connectedState = Some (yiCamera connected) /\
  acknowledged (net (always httpError) 0
                  (previewRequest "192.168.42.1" (resolution (settings connectedState))))
    = false /\
  finalState (always httpError) (startLiveView connectedState) connectedState
    = connectedState.
Proof.
  split; [reflexivity|]. split; [reflexivity|].
  apply (preview_refused_is_silent (always httpError) connectedState connectedState
           (yiCamera connected) eq_refl).
  right. reflexivity.
Defined.

(** ** Recording, start to stop *)

(** X10.  In a committed state whose camera has status "connected" and that
    is not recording, a start command followed by a stop command, both
    acknowledged, leads back to exactly the state before the two
    commands. *)
Theorem start_then_stop_recording_roundtrip (e1 e2 : Env) (s : State) (ci : CameraInfo) :
  render s = s ->
  cameraInfo s = Some ci ->
  status ci = connected ->
  isRecording s = false ->
  acknowledged (net e1 0 (startRecordRequest (ip ci) (settings s))) = true ->
  acknowledged (net e2 0 (stopRecordRequest (ip ci))) = true ->
  isRecording (step e1 StartRecording s) = true /\
  step e2 StopRecording (step e1 StartRecording s) = s.
Proof.
  intros Hrender Hci Hst Hrec Hack1 Hack2.
  assert (step e1 StartRecording s
          = setCameraInfo (withStatus recording) (setIsRecording true s)) as Hstart.
  { unfold step, handler, finalState. rewrite (startRecording_exec e1 s s ci Hci).
    cbn [fst snd].
    destruct (net e1 0 (startRecordRequest (ip ci) (settings s))) as [|[[] j]];
      try discriminate Hack1;
      rewrite <- Hrender at 2; by destruct s. }
  rewrite Hstart. split; [reflexivity|].
  unfold step, handler, finalState.
  rewrite (stopRecording_exec e2 _ _ (mkCameraInfo (ip ci) (model ci) (firmware ci)
                                                    (battery ci) recording)).
  - cbn [fst snd ip].
    destruct (net e2 0 (stopRecordRequest (ip ci))) as [|[[] j]];
      try discriminate Hack2;
      rewrite <- Hrender at 2;
      destruct s as [c sc rc oci addr su err cs vr]; cbn in *; subst;
      destruct ci; cbn in *; subst; reflexivity.
  - cbn. by rewrite Hci.
Qed.

Lemma start_then_stop_recording_roundtrip_witness :
  render connectedState = connectedState /\
  cameraInfo connectedState = Some (yiCamera connected) /\
  step (always Rejected) StopRecording (step (always Rejected) StartRecording connectedState)
    = connectedState.
Proof.
  split; [reflexivity|]. split; [reflexivity|].
  apply (start_then_stop_recording_roundtrip (always Rejected) (always Rejected)
           connectedState (yiCamera connected)); reflexivity.
Defined.

(** ** The handlers as a transition system *)

Ltac solve_message := unfold errorMessages; rewrite !elem_of_cons; tauto.

Lemma scanFound_elem (e : Env) (ips : list string) :
  forall n addr, scanFound e n ips = Some addr -> addr ∈ ips.
Proof.
  induction ips as [|a0 rest IH]; intros n addr; cbn; [discriminate|].
  destruct (accepts (net e n (infoRequest a0))).
  - intros [= <-]. by left.
  - intros H. right. by apply (IH (S n)).
Qed.

Lemma connect_intent (e : Env) (s : State) :
  finalState e (handler Connect s) s = finalState e (connectToCamera (cameraIP s)) s.
Proof.
  cbn [handler]. unfold_exec. unfold exec. rewrite run_bind.
  by destruct (run e 0 (connectToCamera (cameraIP s) s)) as [[b s'] log].
Qed.

(** Every handler run ends in one of the listed outcomes. *)
Lemma handler_outcome (e : Env) (i : Intent) (s : State) :
  Outcome s i (finalState e (handler i s) s).
Proof.
  destruct i.
  - apply out_typed.
  - rewrite connect_intent. unfold_exec. unfold exec.
    destruct (accepts (net e 0 (infoRequest (cameraIP s)))) eqn:Hacc.
    + destruct (connect_accepted_fresh e 0 (cameraIP s) s Hacc) as (ci & Hci & ->).
      by apply out_connected.
    + rewrite (connect_refused_message e 0 (cameraIP s) s Hacc). apply out_connect_failed.
      destruct (net e 0 (infoRequest (cameraIP s))) as [|[[] ?]]; rewrite !elem_of_cons; auto.
  - cbn [handler]. unfold scanForCameras.
    pose proof (scanCandidates_shape e commonIPs s s) as Hshape.
    destruct (scanFound e 0 commonIPs) as [addr|] eqn:Hfound.
    + destruct Hshape as (ci & Hci & ->). apply out_scan_connected; [done|].
      by apply (scanFound_elem e commonIPs 0).
    + destruct Hshape as (msg & Hmsg & Hoff & ->). by apply out_scan_failed.
  - cbn [handler]. unfold_exec. destruct (cameraInfo s) as [ci|] eqn:Hci.
    + rewrite (startLiveView_exec e s s ci Hci). cbn.
      destruct (videoRef s) as [v|] eqn:Hv; [|apply out_preview_unchanged].
      destruct (acknowledged _); [|apply out_preview_unchanged].
      destruct (playable e).
      * by apply (out_preview_playing s ci v).
      * by apply (out_preview_unplayable s ci v).
    + rewrite (startLiveView_no_camera e s s Hci). apply out_preview_unchanged.
  - apply out_preview_stopped.
  - cbn [handler]. unfold_exec. destruct (cameraInfo s) as [ci|] eqn:Hci.
    + rewrite (startRecording_exec e s s ci Hci). cbn.
      destruct (net e 0 (startRecordRequest (ip ci) (settings s))) as [|[[] j]];
        first [by apply (out_started s ci) | apply out_start_ignored].
    + rewrite (startRecording_no_camera e s s Hci). apply out_start_ignored.
  - cbn [handler]. unfold_exec. destruct (cameraInfo s) as [ci|] eqn:Hci.
    + rewrite (stopRecording_exec e s s ci Hci). cbn.
      destruct (net e 0 (stopRecordRequest (ip ci))) as [|[[] j]];
        first [by apply (out_stopped s ci) | apply out_stop_ignored].
    + rewrite (stopRecording_no_camera e s s Hci). apply out_stop_ignored.
  - apply out_disconnected.
  - apply out_settings.
Qed.

(** X11.  Only an explicit disconnect ends a connection: after any other
    intent, whatever the device answers (failed reconnects, failed scans and
    failed commands included), a connected session is still connected. *)
Theorem only_disconnect_disconnects (e : Env) (i : Intent) (s : State) :
  i <> Disconnect ->
  isConnected s = true ->
  isConnected (step e i s) = true.
Proof.
  intros Hi Hs. unfold step.
  destruct (handler_outcome e i s); cbn; done.
Qed.

Lemma only_disconnect_disconnects_witness :
  isConnected recordingState = true /\
  isConnected (step (always Rejected) Connect recordingState) = true.
Proof.
  split; [reflexivity|].
  apply (only_disconnect_disconnects (always Rejected) Connect recordingState);
    [discriminate|reflexivity].
Defined.

(** X12.  Only Connect and Scan establish a connection: after any other
    intent a disconnected session is still disconnected. *)
Theorem only_connecting_connects (e : Env) (i : Intent) (s : State) :
  i <> Connect -> i <> ScanAndConnect ->
  isConnected s = false ->
  isConnected (step e i s) = false.
Proof.
  intros Hc Hsc Hs. unfold step.
  destruct (handler_outcome e i s); cbn; done.
Qed.

Lemma only_connecting_connects_witness :
  isConnected initialState = false /\
  isConnected (step (always (okJson yi4k)) StartRecording initialState) = false.
Proof.
  split; [reflexivity|].
  apply (only_connecting_connects (always (okJson yi4k)) StartRecording initialState);
    [discriminate|discriminate|reflexivity].
Defined.

(** X13.  The settings are changed by the settings controls only: every other
    intent, whatever the device answers, leaves the three settings as they
    were, so they persist across disconnecting and reconnecting and are never
    written from a device answer. *)
Theorem settings_change_only_on_request (e : Env) (i : Intent) (s : State) :
  (forall f v, i <> UpdateSettings f v) ->
  settings (step e i s) = settings s.
Proof.
  intros Hi. unfold step.
  destruct (handler_outcome e i s); cbn; try done. by destruct (Hi f v).
Qed.

Lemma settings_change_only_on_request_witness :
  settings (step (always (okJson yi4k)) Connect
              (step (always Rejected) Disconnect recordingState))
    = settings recordingState.
Proof.
  rewrite (settings_change_only_on_request (always (okJson yi4k)) Connect);
    [|discriminate].
  apply (settings_change_only_on_request (always Rejected) Disconnect recordingState).
  discriminate.
Defined.

(** X14.  The recording flag is changed by Start Recording, Stop Recording
    and Disconnect only; connecting again or scanning while recording keeps
    the flag set. *)
Theorem recording_flag_frame (e : Env) (i : Intent) (s : State) :
  i <> StartRecording -> i <> StopRecording -> i <> Disconnect ->
  isRecording (step e i s) = isRecording s.
Proof.
  intros H1 H2 H3. unfold step.
  destruct (handler_outcome e i s); cbn; done.
Qed.

Lemma recording_flag_frame_witness :
  isRecording (step (always (okJson yi4k)) ScanAndConnect recordingState)
    = isRecording recordingState.
Proof.
  apply (recording_flag_frame (always (okJson yi4k)) ScanAndConnect recordingState);
    discriminate.
Defined.

(** ** Invariants of every intent sequence *)

Lemma withStatus_Some (st : Status) (prev : option CameraInfo) (ci : CameraInfo) :
  withStatus st prev = Some ci ->
  exists ci0, prev = Some ci0 /\ status ci = st /\ ip ci = ip ci0 /\
    model ci = model ci0 /\ firmware ci = firmware ci0 /\ battery ci = battery ci0.
Proof.
  destruct prev as [ci0|]; [|discriminate]. intros [= <-]. by exists ci0.
Qed.

Lemma wellFormed_initial : wellFormed initialState.
Proof. split; [done|]. split; [cbn; solve_message|]. intros ci. discriminate. Qed.

Lemma outcome_wellFormed (s s' : State) (i : Intent) :
  Outcome s i s' -> wellFormed s -> wellFormed s'.
Proof.
  intros Hout (Hscan & Herr & Hinfo).
  destruct Hout as [v | msg Hmsg | ci Hci | msg Hmsg Hoff | addr ci Hci Haddr
                   | | ci v Hci Hv | ci v Hci Hv | | | ci Hci | | ci Hci | | f v];
    (split; [cbn; done|]); (split; [cbn; try done|cbn]);
    try (intros ci'; discriminate); try exact Hinfo.
  - revert Hmsg. solve_message.
  - solve_message.
  - intros ci' [= <-]. destruct Hci as (Hip & Hst & Hm & Hf & Hb).
    rewrite Hip, Hst. done.
  - destruct (isConnected s); solve_message.
  - intros ci' [= <-]. destruct Hci as (Hip & Hst & Hm & Hf & Hb).
    rewrite Hip, Hst. done.
  - solve_message.
  - intros ci' Hci'.
    destruct (withStatus_Some _ _ _ Hci') as (ci0 & H0 & Hst & Hip & Hm & Hf & Hb).
    destruct (Hinfo ci0 H0) as (_ & Hurl & Hm0 & Hf0 & Hb0).
    rewrite Hst, Hip, Hm, Hf, Hb. done.
  - intros ci' Hci'.
    destruct (withStatus_Some _ _ _ Hci') as (ci0 & H0 & Hst & Hip & Hm & Hf & Hb).
    destruct (Hinfo ci0 H0) as (_ & Hurl & Hm0 & Hf0 & Hb0).
    rewrite Hst, Hip, Hm, Hf, Hb. done.
Qed.

Lemma step_wellFormed (e : Env) (i : Intent) (s : State) :
  wellFormed s -> wellFormed (step e i s).
Proof.
  intros Hs. unfold step.
  by apply (outcome_wellFormed s _ i (handler_outcome e i s)).
Qed.

Lemma runIntents_wellFormed (l : list (Intent * Env)) :
  forall s, wellFormed s -> wellFormed (runIntents l s).
Proof.
  induction l as [|[i e] rest IH]; intros s Hs; cbn [runIntents]; [done|].
  by apply IH, step_wellFormed.
Qed.

(** X15.  After every sequence of intents, the status stored in the camera
    information is "connected" or "recording": the "disconnected" member of
    the status type is never stored. *)
Theorem status_never_disconnected (l : list (Intent * Env)) (ci : CameraInfo) :
  cameraInfo (runIntents l initialState) = Some ci ->
  status ci <> disconnected.
Proof.
  intros Hci.
  destruct (runIntents_wellFormed l initialState wellFormed_initial) as (_ & _ & Hinfo).
  by destruct (Hinfo ci Hci).
Qed.

Lemma status_never_disconnected_witness :
  cameraInfo recordingState = Some (yiCamera recording) /\
  status (yiCamera recording) <> disconnected.
Proof.
  split; [reflexivity|].
  apply (status_never_disconnected
           [(Connect, always (okJson yi4k));
            (StartRecording, always (Resolved {| ok := true; json := JsonThrows |}))]).
  reflexivity.
Defined.

(** X16.  After every sequence of intents, the model, firmware and battery
    stored in the camera information are truthy JavaScript values: whatever
    the device reported, the battery shown is never [0] or [NaN] and the model
    and firmware are never empty, [null] or [undefined]. *)
Theorem camera_fields_never_falsy (l : list (Intent * Env)) (ci : CameraInfo) :
  cameraInfo (runIntents l initialState) = Some ci ->
  truthy (model ci) = true /\ truthy (firmware ci) = true /\ truthy (battery ci) = true.
Proof.
  intros Hci.
  destruct (runIntents_wellFormed l initialState wellFormed_initial) as (_ & _ & Hinfo).
  by destruct (Hinfo ci Hci) as (_ & _ & H).
Qed.

Lemma camera_fields_never_falsy_witness :
  cameraInfo (runIntents [(Connect, always (okJson zeroBattery))] initialState)
    = Some {| ip := "192.168.42.1"; model := JsString "Yi4K"; firmware := JsString "1.4.13";
              battery := JsNumber 85; status := connected |} /\
  truthy (JsNumber 85) = true.
Proof.
  split; [reflexivity|].
  apply (camera_fields_never_falsy [(Connect, always (okJson zeroBattery))]
           {| ip := "192.168.42.1"; model := JsString "Yi4K"; firmware := JsString "1.4.13";
              battery := JsNumber 85; status := connected |}).
  reflexivity.
Defined.

(** X17.  After every sequence of intents, while camera information is
    present the stream locator is [http://<camera address>:8080/live] for the
    address in the camera information. *)
Theorem stream_locator_matches_camera (l : list (Intent * Env)) (ci : CameraInfo) :
  cameraInfo (runIntents l initialState) = Some ci ->
  streamUrl (runIntents l initialState) = liveUrl (ip ci).
Proof.
  intros Hci.
  destruct (runIntents_wellFormed l initialState wellFormed_initial) as (_ & _ & Hinfo).
  by destruct (Hinfo ci Hci) as (_ & H & _).
Qed.

Lemma stream_locator_matches_camera_witness :
  cameraInfo recordingState = Some (yiCamera recording) /\
  streamUrl recordingState = "http://192.168.42.1:8080/live".
Proof.
  split; [reflexivity|].
  apply (stream_locator_matches_camera
           [(Connect, always (okJson yi4k));
            (StartRecording, always (Resolved {| ok := true; json := JsonThrows |}))]
           (yiCamera recording)).
  reflexivity.
Defined.

(** ** Invariants of the sessions a user can drive, one settled handler at a
       time *)

Lemma validSettings_update (f : Field) (v : string) (cs : CameraSettings) :
  v ∈ options f -> validSettings cs -> validSettings (updateField f v cs).
Proof.
  intros Hv Hcs g. specialize (Hcs g). destruct f, g; cbn in *; assumption.
Qed.

Lemma validSettings_initial : validSettings (settings initialState).
Proof. intros []; cbn; rewrite !elem_of_cons; auto. Qed.

Lemma uiCoherent_initial : uiCoherent initialState.
Proof.
  split; [reflexivity|]. split; [apply validSettings_initial|].
  split; intros x; discriminate.
Qed.

(** In a committed, consistent state that is disconnected there is no camera
    information, no video element and no recording. *)
Lemma disconnected_bare (s : State) :
  consistent s -> render s = s -> isConnected s = false ->
  cameraInfo s = None /\ videoRef s = None /\ isRecording s = false.
Proof.
  intros [Hrec Hconn] Hrender Hoff. repeat split.
  - destruct (cameraInfo s) as [ci|] eqn:Hci; [|done].
    assert (isConnected s = true) by (apply Hconn; by eexists). congruence.
  - rewrite <- Hrender. unfold render. cbn. by rewrite Hoff.
  - destruct (isRecording s); [|done]. rewrite Hrec in Hoff; done.
Qed.

Lemma outcome_uiCoherent (s s' : State) (i : Intent) :
  consistent s -> wellFormed s -> uiCoherent s -> enabled i s = true ->
  Outcome s i s' -> uiCoherent (render s').
Proof.
  intros Hcons Hwf (Hrender & Hvalid & Hinfo & Hvideo) Hen Hout.
  split; [apply render_idempotent|].
  assert (isConnected s = false ->
          cameraInfo s = None /\ videoRef s = None /\ isRecording s = false) as Hbare
    by (by apply disconnected_bare).
  assert (forall v, videoRef s = Some v -> isConnected s = true) as Hmounted.
  { intros v Hv. destruct (isConnected s) eqn:Hc; [done|].
    destruct (Hbare eq_refl) as (_ & Hnone & _). congruence. }
  destruct Hwf as (_ & _ & Hwf).
  destruct Hout as [v | msg Hmsg | ci Hci | msg Hmsg Hoff | addr ci Hci Haddr
                   | | ci v Hci Hv | ci v Hci Hv | | | ci Hci | | ci Hci | | f v];
    cbn [enabled] in Hen;
    (split; [cbn; try exact Hvalid|split; cbn]).
  all: try (apply negb_true_iff in Hen; destruct (Hbare Hen) as (Hnone & Hvid & Hrec);
            rewrite ?Hen, ?Hnone, ?Hvid; cbn; try done).
  all: try (apply andb_true_iff in Hen as [Hen Hen2]).
  all: try (apply negb_true_iff in Hen; destruct (Hbare Hen) as (Hnone & Hvid & Hrec);
            rewrite ?Hen, ?Hnone, ?Hvid; cbn; try done).
  all: try exact Hinfo.
  all: rewrite ?Hen; cbn.
  all: try (intros x Hx; discriminate Hx).
  all: try (intros v' [= <-]; destruct (videoRef s) as [v0|] eqn:Hv0; cbn;
            first [by left | by apply Hvideo]).
  all: try (intros v' [= <-]; right; cbn; symmetry; by apply (Hwf ci Hci)).
  - intros ci0 [= <-]. destruct Hci as (Hip & Hst & _). rewrite Hip, Hst, Hrec.
    split; [done|]. split; discriminate.
  - intros ci0 [= <-]. destruct Hci as (Hip & Hst & _). rewrite Hip, Hst, Hrec.
    split; [done|]. split; discriminate.
  - intros ci0 Hci0.
    destruct (withStatus_Some _ _ _ Hci0) as (ci1 & H1 & Hst & Hip & _).
    rewrite Hst, Hip. split; [by apply Hinfo|done].
  - intros ci0 Hci0.
    destruct (withStatus_Some _ _ _ Hci0) as (ci1 & H1 & Hst & Hip & _).
    rewrite Hst, Hip. split; [by apply Hinfo|]. split; discriminate.
  - apply validSettings_update; [|exact Hvalid]. by apply bool_decide_eq_true in Hen2.
Qed.

Lemma uiReachable_invariants (s : State) :
  UiReachable s -> consistent s /\ wellFormed s /\ uiCoherent s.
Proof.
  induction 1 as [|s e i Hs (Hcons & Hwf & Hcoh) Hen].
  - split; [apply consistent_initial|]. split; [apply wellFormed_initial|].
    apply uiCoherent_initial.
  - split; [by apply step_consistent|]. split; [by apply step_wellFormed|].
    unfold step. by apply (outcome_uiCoherent s _ i Hcons Hwf Hcoh Hen), handler_outcome.
Qed.

Lemma uiReachable_connected : UiReachable connectedState.
Proof. apply (ui_step initialState (always (okJson yi4k)) Connect ui_initial eq_refl). Qed.

Lemma uiReachable_recording : UiReachable recordingState.
Proof.
  apply (ui_step connectedState (always (Resolved {| ok := true; json := JsonThrows |}))
           StartRecording uiReachable_connected eq_refl).
Qed.

(** X18.  In every state reached through the rendered controls with every
    handler settled before the next control is used, the status in the camera
    information agrees with the recording flag: it is "recording" exactly when
    the flag is set.  (Not so once answers arrive late, see
    [late_answers_escape_settled_states].) *)
Theorem ui_status_agrees_with_recording (s : State) (ci : CameraInfo) :
  UiReachable s ->
  cameraInfo s = Some ci ->
  (status ci = recording <-> isRecording s = true).
Proof.
  intros Hs Hci. destruct (uiReachable_invariants s Hs) as (_ & _ & _ & _ & Hinfo & _).
  by destruct (Hinfo ci Hci).
Qed.

Lemma ui_status_agrees_with_recording_witness :
  cameraInfo recordingState = Some (yiCamera recording) /\
  (status (yiCamera recording) = recording <-> isRecording recordingState = true).
Proof.
  split; [reflexivity|].
  apply (ui_status_agrees_with_recording recordingState (yiCamera recording)
           uiReachable_recording eq_refl).
Defined.

(** X19.  In every state reached through the rendered controls with every
    handler settled before the next control is used, while camera information
    is present its address is the one shown in the address input.  (Not so
    once answers arrive late, see [late_answers_escape_settled_states].) *)
Theorem ui_address_matches_camera (s : State) (ci : CameraInfo) :
  UiReachable s ->
  cameraInfo s = Some ci ->
  ip ci = cameraIP s.
Proof.
  intros Hs Hci. destruct (uiReachable_invariants s Hs) as (_ & _ & _ & _ & Hinfo & _).
  by destruct (Hinfo ci Hci).
Qed.

Lemma ui_address_matches_camera_witness :
  cameraInfo recordingState = Some (yiCamera recording) /\
  ip (yiCamera recording) = cameraIP recordingState.
Proof.
  split; [reflexivity|].
  apply (ui_address_matches_camera recordingState (yiCamera recording)
           uiReachable_recording eq_refl).
Defined.

(** X20.  In every state reached through the rendered controls, each of the
    three settings is one of the values offered by its select control. *)
Theorem ui_settings_valid (s : State) (f : Field) :
  UiReachable s ->
  getField f (settings s) ∈ options f.
Proof.
  intros Hs. destruct (uiReachable_invariants s Hs) as (_ & _ & _ & Hvalid & _).
  apply Hvalid.
Qed.

Lemma ui_settings_valid_witness :
  getField Quality
    (settings (step (always Rejected) (UpdateSettings Quality "low") connectedState))
    ∈ options Quality.
Proof.
  apply (ui_settings_valid
           (step (always Rejected) (UpdateSettings Quality "low") connectedState) Quality).
  apply (ui_step connectedState (always Rejected) (UpdateSettings Quality "low")
           uiReachable_connected).
  reflexivity.
Defined.

(** X21.  In every state reached through the rendered controls with every
    handler settled before the next control is used, the source of a mounted
    video element is either empty or the stream locator of the session.  (Not
    so once answers arrive late, see [late_answers_escape_settled_states].) *)
Theorem ui_video_source (s : State) (v : Video) :
  UiReachable s ->
  videoRef s = Some v ->
  src v = EmptyString \/ src v = streamUrl s.
Proof.
  intros Hs Hv. destruct (uiReachable_invariants s Hs) as (_ & _ & _ & _ & _ & Hvideo).
  by apply Hvideo.
Qed.

Lemma ui_video_source_witness :
  videoRef (step (playableHost "192.168.42.1" yi4k) StartPreview connectedState)
    = Some {| src := "http://192.168.42.1:8080/live"; paused := false |} /\
  ("http://192.168.42.1:8080/live" = EmptyString \/
   "http://192.168.42.1:8080/live"
     = streamUrl (step (playableHost "192.168.42.1" yi4k) StartPreview connectedState)).
Proof.
  split; [reflexivity|].
  apply (ui_video_source
           (step (playableHost "192.168.42.1" yi4k) StartPreview connectedState)
           {| src := "http://192.168.42.1:8080/live"; paused := false |}).
  - apply (ui_step connectedState (playableHost "192.168.42.1" yi4k) StartPreview
             uiReachable_connected).
    reflexivity.
  - reflexivity.
Defined.

(** X22.  In every connected state reached through the rendered controls
    with every handler settled before the next control is used, each device
    command sends exactly one request, to the address shown in the address
    input: the preview command carries the current resolution, the start
    command the three current settings, and the stop command no body.  (Not so
    once answers arrive late, see [late_answers_escape_settled_states].) *)
Theorem ui_commands_target_shown_address (e : Env) (s : State) :
  UiReachable s ->
  isConnected s = true ->
  requests e (startLiveView s) s = [previewRequest (cameraIP s) (resolution (settings s))] /\
  requests e (startRecording s) s = [startRecordRequest (cameraIP s) (settings s)] /\
  requests e (stopRecording s) s = [stopRecordRequest (cameraIP s)].
Proof.
  intros Hs Hon.
  destruct (uiReachable_invariants s Hs) as ((_ & Hconn) & _ & _ & _ & Hinfo & _).
  destruct (proj1 Hconn Hon) as [ci Hci].
  destruct (Hinfo ci Hci) as [Hip _].
  unfold_exec.
  rewrite (startLiveView_exec e s s ci Hci), (startRecording_exec e s s ci Hci),
    (stopRecording_exec e s s ci Hci).
  cbn [snd]. by rewrite Hip.
Qed.

Lemma ui_commands_target_shown_address_witness :
  isConnected recordingState = true /\
  requests (always Rejected) (stopRecording recordingState) recordingState
    = [stopRecordRequest "192.168.42.1"].
Proof.
  split; [reflexivity|].
  apply (ui_commands_target_shown_address (always Rejected) recordingState
           uiReachable_recording eq_refl).
Defined.

(** The four properties X18, X19, X21 and X22 need every handler to have
    settled before the next control is used.  The JSX keeps the controls
    usable while an answer is awaited, and with late answers the same controls
    lead outside them: after a start command acknowledged after Disconnect
    and a new Connect, the status is "connected" with the recording flag set;
    after an address typed while a connect is pending, the camera information
    holds the first address and the input the second, and commands go to the
    first; after a preview acknowledged once the user has moved to another
    camera, the video plays the first camera while the stream locator is the
    second camera's. *)
Remark late_answers_escape_settled_states :
  (status <$> cameraInfo reconnectedLate = Some connected /\
   isRecording reconnectedLate = true) /\
  (ip <$> cameraInfo lateConnectState = Some "10.0.0.7" /\
   cameraIP lateConnectState = "10.0.0.8" /\
   requests acknowledging (startRecording lateConnectState) lateConnectState
     = [startRecordRequest "10.0.0.7" (settings lateConnectState)]) /\
  (src <$> videoRef latePreviewState = Some "http://192.168.42.1:8080/live" /\
   streamUrl latePreviewState = "http://10.0.0.7:8080/live").
Proof. repeat split; reflexivity. Qed.

(** ** Composition of intents *)

Lemma connect_one_request_shape (e : Env) (addr : string) (s : State) :
  exists b s', run e 0 (connectToCamera addr s) = ((b, s'), [infoRequest addr]).
Proof.
  destruct (accepts (net e 0 (infoRequest addr))) eqn:Hacc.
  - destruct (connect_accepted_fresh e 0 addr s Hacc) as (ci & _ & ->). by eexists _, _.
  - rewrite (connect_refused_message e 0 addr s Hacc). by eexists _, _.
Qed.



(** X23.  Disconnecting leaves the typed address, the stream locator, the
    error message, the settings and the scanning flag as they were (only the
    connection flag, the recording flag, the camera information and the video
    element are reset), and disconnecting twice is the same as disconnecting
    once. *)
Theorem disconnect_frame_and_idempotent (e e' : Env) (s : State) :
  cameraIP (step e Disconnect s) = cameraIP s /\
  streamUrl (step e Disconnect s) = streamUrl s /\
  error (step e Disconnect s) = error s /\
  settings (step e Disconnect s) = settings s /\
  isScanning (step e Disconnect s) = isScanning s /\
  step e' Disconnect (step e Disconnect s) = step e Disconnect s.
Proof. repeat split; reflexivity. Qed.

(** X24.  A recording command issued with camera information in the render
    and acknowledged by the device (or whose fetch was rejected) sends one
    request to the camera of the render, sets the recording flag (start) or
    clears it (stop), rewrites the status of the current camera information
    accordingly, and changes nothing else; the start request carries the three
    settings of the render. *)
Theorem recording_commands_acknowledged (e : Env) (r s : State) (ci : CameraInfo) :
  cameraInfo r = Some ci ->
  (acknowledged (net e 0 (startRecordRequest (ip ci) (settings r))) = true ->
   exec e (startRecording r) s =
   ((tt, setCameraInfo (withStatus recording) (setIsRecording true s)),
    [startRecordRequest (ip ci) (settings r)])) /\
  (acknowledged (net e 0 (stopRecordRequest (ip ci))) = true ->
   exec e (stopRecording r) s =
   ((tt, setCameraInfo (withStatus connected) (setIsRecording false s)),
    [stopRecordRequest (ip ci)])).
Proof.
  intros Hr. rewrite (startRecording_exec e r s ci Hr), (stopRecording_exec e r s ci Hr).
  split; intros Hack.
  - by destruct (net e 0 (startRecordRequest (ip ci) (settings r))) as [|[[] j]].
  - by destruct (net e 0 (stopRecordRequest (ip ci))) as [|[[] j]].
Qed.

Lemma recording_commands_acknowledged_witness :
  cameraInfo connectedState = Some (yiCamera connected) /\
  finalState (always Rejected) (startRecording connectedState) connectedState
    = setCameraInfo (withStatus recording) (setIsRecording true connectedState) /\
  requests (always Rejected) (stopRecording connectedState) connectedState
    = [stopRecordRequest "192.168.42.1"].
Proof.
  split; [reflexivity|].
  destruct (recording_commands_acknowledged (always Rejected) connectedState connectedState
              (yiCamera connected) eq_refl) as [Hstart Hstop].
  unfold finalState, requests. rewrite (Hstart eq_refl), (Hstop eq_refl).
  split; reflexivity.
Defined.

(** X25.  The Connect button probes the address typed last: after an address
    is typed, a connect attempt sends its single request to [/camera-info] at
    that address and, when accepted, stores that address in the camera
    information. *)
Theorem connect_uses_typed_address (e0 e : Env) (v : string) (s : State) :
  requests e (handler Connect (step e0 (TypeAddress v) s)) (step e0 (TypeAddress v) s)
    = [infoRequest v] /\
  (accepts (net e 0 (infoRequest v)) = true ->
   ip <$> cameraInfo (step e Connect (step e0 (TypeAddress v) s)) = Some v).
Proof.
  split.
  - cbn [handler]. unfold_exec. unfold exec. rewrite run_bind.
    change (cameraIP (step e0 (TypeAddress v) s)) with v.
    destruct (connect_one_request_shape e v (step e0 (TypeAddress v) s)) as (b & s' & ->).
    reflexivity.
  - intros Hacc. unfold step at 1. cbn [render cameraInfo setVideo].
    rewrite connect_intent. unfold_exec. unfold exec.
    change (cameraIP (step e0 (TypeAddress v) s)) with v.
    destruct (connect_accepted_fresh e 0 v (step e0 (TypeAddress v) s) Hacc)
      as (ci & (Hip & _) & ->).
    cbn. by rewrite Hip.
Qed.

Lemma connect_uses_typed_address_witness :
  accepts (net (always (okJson yi4k)) 0 (infoRequest "10.0.0.7")) = true /\
  ip <$> cameraInfo (step (always (okJson yi4k)) Connect
                       (step (always Rejected) (TypeAddress "10.0.0.7") initialState))
    = Some "10.0.0.7".
Proof.
  split; [reflexivity|].
  apply (connect_uses_typed_address (always Rejected) (always (okJson yi4k)) "10.0.0.7"
           initialState).
  reflexivity.
Defined.
